(** * Strategy pattern: three encodings of an interchangeable numeric operation

    A shallow embedding of the three namespaces of the repository

    - [ReferenceSemantics] : strategies are objects behind a
      [std::unique_ptr<OperationStrategy>] and are dispatched virtually;
    - [ValueSemantics]     : strategies are callables stored in a
      [std::function<void(TValue&)>];
    - [Template]           : the strategy is a template parameter of the
      container class,

    together with the properties their unit tests and documentation state.

    Scalars.  [int32_t] is a [Z] whose arithmetic wraps around modulo [2^32]
    (two's complement, the behaviour of the MSVC target the project is built
    for); [float_t] is IEEE-754 binary32, given by the Standard Library's
    [SpecFloat] with precision 24 and exponent bound 128 and
    round-to-nearest-even.

    Objects.  A C++ member function that mutates [*this] is a function from
    the object before the call to the object after it.  A call that the C++
    abstract machine cannot complete (calling through a null [unique_ptr],
    invoking an empty [std::function]) is a [Fault]. *)

From Stdlib Require Import ZArith List Bool Lia.
From Stdlib Require Import Floats.SpecFloat.
Import ListNotations.

Local Open Scope Z_scope.

(* ===================================================================== *)
(** ** Scalars *)
(* ===================================================================== *)

Module Int32.

Definition min_signed : Z := - 2 ^ 31.
Definition max_signed : Z := 2 ^ 31 - 1.
Definition modulus : Z := 2 ^ 32.

Definition in_range (z : Z) : Prop := min_signed <= z <= max_signed.

(** The two's complement representative of [z] modulo [2^32]. *)
Definition wrap (z : Z) : Z := (z - min_signed) mod modulus + min_signed.

(** [a + b] and [a - b] on [int32_t] operands. *)
Definition add (a b : Z) : Z := wrap (a + b).
Definition sub (a b : Z) : Z := wrap (a - b).

End Int32.

Module Float32.

Definition prec : Z := 24.
Definition emax : Z := 128.

Definition t : Type := spec_float.

(** [a + b] and [a - b] on [float] operands. *)
Definition add (a b : t) : t := SFadd prec emax a b.
Definition sub (a b : t) : t := SFsub prec emax a b.

(** The C++ [operator==] on floats: [NaN] differs from everything,
    [+0] equals [-0]. *)
Definition eqb (a b : t) : bool := SFeqb a b.

(** Conversion of an integer to the nearest [float]: the float32 image. *)
Definition of_Z (n : Z) : t := binary_normalize prec emax n 0 false.

(** The literals of the source. *)
Definition zero : t := S754_zero false.                   (* 0.0f *)
Definition one : t := S754_finite false 8388608 (-23).    (* 1.0f *)
Definition two : t := S754_finite false 8388608 (-22).    (* 2.0f *)
Definition minus_one : t := S754_finite true 8388608 (-23).  (* -1.0f *)
Definition minus_two : t := S754_finite true 8388608 (-22).  (* -2.0f *)

(** Every integer from [-2^24] to [2^24] is a [float], so a step of
    one between two of them is exact; [2^24 + 1] is the first integer
    that is not. *)
Definition exact_bound : Z := 2 ^ 24.
Definition exact_int (n : Z) : Prop := - exact_bound <= n <= exact_bound.
Definition exact_intb (n : Z) : bool := (- exact_bound <=? n) && (n <=? exact_bound).

End Float32.

(* ===================================================================== *)
(** ** Calls that may not complete, owning pointers, the random source *)
(* ===================================================================== *)

Inductive fault : Type :=
| NullPointerDereference   (* [operator->] on an empty [std::unique_ptr] *)
| BadFunctionCall.         (* [operator()] on an empty [std::function] *)

Inductive outcome (A : Type) : Type :=
| Done (a : A)
| Fault (f : fault).

Arguments Done {A} a.
Arguments Fault {A} f.

Definition bind {A B : Type} (x : outcome A) (k : A -> outcome B) : outcome B :=
  match x with
  | Done a => k a
  | Fault f => Fault f
  end.

Declare Scope outcome_scope.
Delimit Scope outcome_scope with outcome.
Notation "x <- c ;; k" := (bind c (fun x => k))
  (at level 61, c at next level, right associativity) : outcome_scope.

(** [std::unique_ptr<T>]: empty, or owning one object. *)
Definition unique_ptr (T : Type) : Type := option T.
Definition make_unique {T : Type} (x : T) : unique_ptr T := Some x.
Definition nullptr {T : Type} : unique_ptr T := None.

(** [Random::RandomBool()] lives in a header outside the repository's
    strategy code; it is taken as an interface: a generator state and a
    draw that returns a boolean and the next state. *)
Module Random.

Class Source (G : Type) : Type := { RandomBool : G -> bool * G }.

(** A source that replays a recorded list of draws ([false] when the
    record is exhausted). *)
#[export] Instance Replay : Source (list bool) :=
  {| RandomBool := fun g => match g with
                            | [] => (false, [])
                            | b :: g' => (b, g')
                            end |}.

End Random.
Import Random.

(* ===================================================================== *)
(** ** namespace ReferenceSemantics *)
(* ===================================================================== *)

Module ReferenceSemantics.

Module IntValue.

(** The dynamic type of an object behind
    [OperationStrategy<IntValue>*]. The classes are stateless. *)
Inductive OperationStrategy : Type :=
| IncrementIntValueOperationStrategy
| DecrementIntValueOperationStrategy.

Record t : Type := IntValue
  { m_OperationStrategy : unique_ptr OperationStrategy;
    m_Value : Z }.

(** [explicit IntValue(const int32_t value, unique_ptr&& operationStrategy)] *)
Definition new (value : Z) (operationStrategy : unique_ptr OperationStrategy) : t :=
  {| m_OperationStrategy := operationStrategy; m_Value := value |}.

Definition SetOperationStrategy
  (operationStrategy : unique_ptr OperationStrategy) (this : t) : t :=
  {| m_OperationStrategy := operationStrategy; m_Value := m_Value this |}.

Definition GetValue (this : t) : Z := m_Value this.

Definition SetValue (value : Z) (this : t) : t :=
  {| m_OperationStrategy := m_OperationStrategy this; m_Value := value |}.

(** [virtual void OperationStrategy::Operation(IntValue&)], by dynamic type. *)
Definition Strategy_Operation (s : OperationStrategy) (value : t) : t :=
  match s with
  | IncrementIntValueOperationStrategy =>
      SetValue (Int32.add (GetValue value) 1) value
  | DecrementIntValueOperationStrategy =>
      SetValue (Int32.sub (GetValue value) 1) value
  end.

(** [m_OperationStrategy->Operation( *this )] *)
Definition Operation (this : t) : outcome t :=
  match m_OperationStrategy this with
  | None => Fault NullPointerDereference
  | Some s => Done (Strategy_Operation s this)
  end.

End IntValue.

Module FloatValue.

Inductive OperationStrategy : Type :=
| IncrementFloatValueOperationStrategy
| DecrementFloatValueOperationStrategy.

Record t : Type := FloatValue
  { m_OperationStrategy : unique_ptr OperationStrategy;
    m_Value : Float32.t }.

Definition new (value : Float32.t)
  (operationStrategy : unique_ptr OperationStrategy) : t :=
  {| m_OperationStrategy := operationStrategy; m_Value := value |}.

Definition SetOperationStrategy
  (operationStrategy : unique_ptr OperationStrategy) (this : t) : t :=
  {| m_OperationStrategy := operationStrategy; m_Value := m_Value this |}.

Definition GetValue (this : t) : Float32.t := m_Value this.

Definition SetValue (value : Float32.t) (this : t) : t :=
  {| m_OperationStrategy := m_OperationStrategy this; m_Value := value |}.

Definition Strategy_Operation (s : OperationStrategy) (value : t) : t :=
  match s with
  | IncrementFloatValueOperationStrategy =>
      SetValue (Float32.add (GetValue value) Float32.one) value
  | DecrementFloatValueOperationStrategy =>
      SetValue (Float32.sub (GetValue value) Float32.one) value
  end.

Definition Operation (this : t) : outcome t :=
  match m_OperationStrategy this with
  | None => Fault NullPointerDereference
  | Some s => Done (Strategy_Operation s this)
  end.

End FloatValue.

(** The dynamic type of an object behind [Value*]. *)
Inductive Value : Type :=
| IsIntValue (v : IntValue.t)
| IsFloatValue (v : FloatValue.t).

(** [virtual void Value::Operation()] *)
Definition Operation (this : Value) : outcome Value :=
  match this with
  | IsIntValue v => (v' <- IntValue.Operation v ;; Done (IsIntValue v'))%outcome
  | IsFloatValue v => (v' <- FloatValue.Operation v ;; Done (IsFloatValue v'))%outcome
  end.

Definition CreateRandomValue {G : Type} `{Source G} (g : G) : unique_ptr Value * G :=
  let (isInt, g1) := RandomBool g in
  if isInt then
    let (operationStrategy, g2) :=
      let (isIncrement, g2) := RandomBool g1 in
      if isIncrement
      then (make_unique IntValue.IncrementIntValueOperationStrategy, g2)
      else (make_unique IntValue.DecrementIntValueOperationStrategy, g2) in
    (make_unique (IsIntValue (IntValue.new 0 operationStrategy)), g2)
  else
    let (operationStrategy, g2) :=
      let (isIncrement, g2) := RandomBool g1 in
      if isIncrement
      then (make_unique FloatValue.IncrementFloatValueOperationStrategy, g2)
      else (make_unique FloatValue.DecrementFloatValueOperationStrategy, g2) in
    (make_unique (IsFloatValue (FloatValue.new Float32.zero operationStrategy)), g2).

End ReferenceSemantics.

(* ===================================================================== *)
(** ** namespace ValueSemantics *)
(* ===================================================================== *)

Module ValueSemantics.

Module IntValue.

(** The target held by a [std::function<void(IntValue&)>]: the
    callables this namespace creates, a function object and a closure.
    Neither has state. *)
Inductive Callable : Type :=
| IncrementIntValueOperationStrategy     (* the function-object class *)
| DecrementIntValueLambda.               (* the closure returned by
                                            [GetDecrementIntValueOperationStrategy] *)

(** [using OperationStrategy = std::function<void(IntValue&)>]:
    empty, or holding a target. *)
Definition OperationStrategy : Type := option Callable.

Record t : Type := IntValue
  { m_OperationStrategy : OperationStrategy;
    m_Value : Z }.

Definition new (value : Z) (operationStrategy : OperationStrategy) : t :=
  {| m_OperationStrategy := operationStrategy; m_Value := value |}.

Definition SetOperationStrategy
  (operationStrategy : OperationStrategy) (this : t) : t :=
  {| m_OperationStrategy := operationStrategy; m_Value := m_Value this |}.

Definition GetValue (this : t) : Z := m_Value this.

Definition SetValue (value : Z) (this : t) : t :=
  {| m_OperationStrategy := m_OperationStrategy this; m_Value := value |}.

(** [operator()] of the held target. *)
Definition call (c : Callable) (value : t) : t :=
  match c with
  | IncrementIntValueOperationStrategy =>
      SetValue (Int32.add (GetValue value) 1) value
  | DecrementIntValueLambda =>
      SetValue (Int32.sub (GetValue value) 1) value
  end.

(** Conversion of the function object to [std::function]. *)
Definition IncrementIntValueOperationStrategy_ : OperationStrategy :=
  Some IncrementIntValueOperationStrategy.

Definition GetDecrementIntValueOperationStrategy : OperationStrategy :=
  Some DecrementIntValueLambda.

(** [m_OperationStrategy( *this )] *)
Definition Operation (this : t) : outcome t :=
  match m_OperationStrategy this with
  | None => Fault BadFunctionCall
  | Some c => Done (call c this)
  end.

End IntValue.

Module FloatValue.

Inductive Callable : Type :=
| IncrementFloatValueOperationStrategy
| DecrementFloatValueLambda.

Definition OperationStrategy : Type := option Callable.

Record t : Type := FloatValue
  { m_OperationStrategy : OperationStrategy;
    m_Value : Float32.t }.

Definition new (value : Float32.t) (operationStrategy : OperationStrategy) : t :=
  {| m_OperationStrategy := operationStrategy; m_Value := value |}.

Definition SetOperationStrategy
  (operationStrategy : OperationStrategy) (this : t) : t :=
  {| m_OperationStrategy := operationStrategy; m_Value := m_Value this |}.

Definition GetValue (this : t) : Float32.t := m_Value this.

Definition SetValue (value : Float32.t) (this : t) : t :=
  {| m_OperationStrategy := m_OperationStrategy this; m_Value := value |}.

Definition call (c : Callable) (value : t) : t :=
  match c with
  | IncrementFloatValueOperationStrategy =>
      SetValue (Float32.add (GetValue value) Float32.one) value
  | DecrementFloatValueLambda =>
      SetValue (Float32.sub (GetValue value) Float32.one) value
  end.

Definition IncrementFloatValueOperationStrategy_ : OperationStrategy :=
  Some IncrementFloatValueOperationStrategy.

Definition GetDecrementFloatValueOperationStrategy : OperationStrategy :=
  Some DecrementFloatValueLambda.

Definition Operation (this : t) : outcome t :=
  match m_OperationStrategy this with
  | None => Fault BadFunctionCall
  | Some c => Done (call c this)
  end.

End FloatValue.

Inductive Value : Type :=
| IsIntValue (v : IntValue.t)
| IsFloatValue (v : FloatValue.t).

Definition Operation (this : Value) : outcome Value :=
  match this with
  | IsIntValue v => (v' <- IntValue.Operation v ;; Done (IsIntValue v'))%outcome
  | IsFloatValue v => (v' <- FloatValue.Operation v ;; Done (IsFloatValue v'))%outcome
  end.

Definition CreateRandomValue {G : Type} `{Source G} (g : G) : unique_ptr Value * G :=
  let (isInt, g1) := RandomBool g in
  if isInt then
    let (isIncrement, g2) := RandomBool g1 in
    (make_unique
       (IsIntValue
          (IntValue.new 0
             (if isIncrement
              then IntValue.IncrementIntValueOperationStrategy_
              else IntValue.GetDecrementIntValueOperationStrategy))), g2)
  else
    let (isIncrement, g2) := RandomBool g1 in
    (make_unique
       (IsFloatValue
          (FloatValue.new Float32.zero
             (if isIncrement
              then FloatValue.IncrementFloatValueOperationStrategy_
              else FloatValue.GetDecrementFloatValueOperationStrategy))), g2).

End ValueSemantics.

(* ===================================================================== *)
(** ** namespace Template *)
(* ===================================================================== *)

Module Template.

Module IntValue.

(** [template<typename TOperationStrategy> class IntValue] *)
Record t (TOperationStrategy : Type) : Type := IntValue
  { m_OperationStrategy : TOperationStrategy;
    m_Value : Z }.

Arguments IntValue {TOperationStrategy} _ _.
Arguments m_OperationStrategy {TOperationStrategy} _.
Arguments m_Value {TOperationStrategy} _.

(** What the class body asks of its template argument: it is
    value-initialised ([m_OperationStrategy{}]) and called on the
    container ([m_OperationStrategy( *this )]). *)
Class Strategy (S : Type) : Type :=
  { value_init : S;
    call : S -> t S -> t S }.

Section Members.
Context {S : Type} `{Strategy S}.

(** [explicit IntValue(const int32_t value)] *)
Definition new (value : Z) : t S :=
  {| m_OperationStrategy := value_init; m_Value := value |}.

Definition GetValue (this : t S) : Z := m_Value this.

Definition SetValue (value : Z) (this : t S) : t S :=
  {| m_OperationStrategy := m_OperationStrategy this; m_Value := value |}.

Definition Operation (this : t S) : t S :=
  call (m_OperationStrategy this) this.
End Members.

(** The two strategy classes; both are empty classes. *)
Inductive IncrementIntValueOperationStrategy : Type :=
| IncrementIntValueOperationStrategy_object.

Inductive DecrementIntValueOperationStrategy : Type :=
| DecrementIntValueOperationStrategy_object.

End IntValue.

(** [operator()(IntValue<IncrementIntValueOperationStrategy>& value)] *)
#[global] Instance IncrementInt :
  IntValue.Strategy IntValue.IncrementIntValueOperationStrategy :=
  {| IntValue.value_init := IntValue.IncrementIntValueOperationStrategy_object;
     IntValue.call := fun _ value =>
       IntValue.SetValue (Int32.add (IntValue.GetValue value) 1) value |}.

#[global] Instance DecrementInt :
  IntValue.Strategy IntValue.DecrementIntValueOperationStrategy :=
  {| IntValue.value_init := IntValue.DecrementIntValueOperationStrategy_object;
     IntValue.call := fun _ value =>
       IntValue.SetValue (Int32.sub (IntValue.GetValue value) 1) value |}.

Module FloatValue.

Record t (TOperationStrategy : Type) : Type := FloatValue
  { m_OperationStrategy : TOperationStrategy;
    m_Value : Float32.t }.

Arguments FloatValue {TOperationStrategy} _ _.
Arguments m_OperationStrategy {TOperationStrategy} _.
Arguments m_Value {TOperationStrategy} _.

Class Strategy (S : Type) : Type :=
  { value_init : S;
    call : S -> t S -> t S }.

Section Members.
Context {S : Type} `{Strategy S}.

Definition new (value : Float32.t) : t S :=
  {| m_OperationStrategy := value_init; m_Value := value |}.

Definition GetValue (this : t S) : Float32.t := m_Value this.

Definition SetValue (value : Float32.t) (this : t S) : t S :=
  {| m_OperationStrategy := m_OperationStrategy this; m_Value := value |}.

Definition Operation (this : t S) : t S :=
  call (m_OperationStrategy this) this.
End Members.

Inductive IncrementFloatValueOperationStrategy : Type :=
| IncrementFloatValueOperationStrategy_object.

Inductive DecrementFloatValueOperationStrategy : Type :=
| DecrementFloatValueOperationStrategy_object.

End FloatValue.

#[global] Instance IncrementFloat :
  FloatValue.Strategy FloatValue.IncrementFloatValueOperationStrategy :=
  {| FloatValue.value_init := FloatValue.IncrementFloatValueOperationStrategy_object;
     FloatValue.call := fun _ value =>
       FloatValue.SetValue (Float32.add (FloatValue.GetValue value) Float32.one) value |}.

#[global] Instance DecrementFloat :
  FloatValue.Strategy FloatValue.DecrementFloatValueOperationStrategy :=
  {| FloatValue.value_init := FloatValue.DecrementFloatValueOperationStrategy_object;
     FloatValue.call := fun _ value =>
       FloatValue.SetValue (Float32.sub (FloatValue.GetValue value) Float32.one) value |}.

(** The dynamic type of an object behind [Value*]: one class per
    instantiation of the two templates. *)
Inductive Value : Type :=
| IsIncrementIntValue (v : IntValue.t IntValue.IncrementIntValueOperationStrategy)
| IsDecrementIntValue (v : IntValue.t IntValue.DecrementIntValueOperationStrategy)
| IsIncrementFloatValue (v : FloatValue.t FloatValue.IncrementFloatValueOperationStrategy)
| IsDecrementFloatValue (v : FloatValue.t FloatValue.DecrementFloatValueOperationStrategy).

Definition Operation (this : Value) : Value :=
  match this with
  | IsIncrementIntValue v => IsIncrementIntValue (IntValue.Operation v)
  | IsDecrementIntValue v => IsDecrementIntValue (IntValue.Operation v)
  | IsIncrementFloatValue v => IsIncrementFloatValue (FloatValue.Operation v)
  | IsDecrementFloatValue v => IsDecrementFloatValue (FloatValue.Operation v)
  end.

Definition CreateRandomValue {G : Type} `{Source G} (g : G) : unique_ptr Value * G :=
  let (isInt, g1) := RandomBool g in
  if isInt then
    let (isIncrement, g2) := RandomBool g1 in
    if isIncrement
    then (make_unique (IsIncrementIntValue (IntValue.new 0)), g2)
    else (make_unique (IsDecrementIntValue (IntValue.new 0)), g2)
  else
    let (isIncrement, g2) := RandomBool g1 in
    if isIncrement
    then (make_unique (IsIncrementFloatValue (FloatValue.new Float32.zero)), g2)
    else (make_unique (IsDecrementFloatValue (FloatValue.new Float32.zero)), g2).

End Template.

(* ===================================================================== *)
(** ** Clients: a sequence of calls on one container *)
(* ===================================================================== *)

(** The two behaviours a caller can ask for. *)
Inductive Behaviour : Type := Increment | Decrement.

(** A call a client makes on a container whose strategies have type [S]. *)
Inductive Call (S : Type) : Type :=
| CallOperation
| CallSetOperationStrategy (s : S).

Arguments CallOperation {S}.
Arguments CallSetOperationStrategy {S} s.

Definition Call_map {S S' : Type} (f : S -> S') (call : Call S) : Call S' :=
  match call with
  | CallOperation => CallOperation
  | CallSetOperationStrategy s => CallSetOperationStrategy (f s)
  end.

Section Client.
Context {C S V : Type}.
Variable Operation : C -> outcome C.
Variable SetOperationStrategy : S -> C -> C.
Variable GetValue : C -> V.

Definition step (call : Call S) (c : C) : outcome C :=
  match call with
  | CallOperation => Operation c
  | CallSetOperationStrategy s => Done (SetOperationStrategy s c)
  end.

(** The container after the calls, or the first fault. *)
Fixpoint run (calls : list (Call S)) (c : C) : outcome C :=
  match calls with
  | [] => Done c
  | call :: rest => (c' <- step call c ;; run rest c')%outcome
  end.

(** What [GetValue()] returns after each completed call. *)
Fixpoint trace (calls : list (Call S)) (c : C) : list V :=
  match calls with
  | [] => []
  | call :: rest =>
      match step call c with
      | Done c' => GetValue c' :: trace rest c'
      | Fault _ => []
      end
  end.
End Client.

(** The four swappable containers as clients see them, and the strategy
    argument a caller writes for each behaviour. *)
Module RefInt.
Import ReferenceSemantics.IntValue.
Definition strategy (b : Behaviour) : unique_ptr OperationStrategy :=
  match b with
  | Increment => make_unique IncrementIntValueOperationStrategy
  | Decrement => make_unique DecrementIntValueOperationStrategy
  end.
Definition run := run Operation SetOperationStrategy.
Definition trace := trace Operation SetOperationStrategy GetValue.
End RefInt.

Module RefFloat.
Import ReferenceSemantics.FloatValue.
Definition strategy (b : Behaviour) : unique_ptr OperationStrategy :=
  match b with
  | Increment => make_unique IncrementFloatValueOperationStrategy
  | Decrement => make_unique DecrementFloatValueOperationStrategy
  end.
Definition run := run Operation SetOperationStrategy.
Definition trace := trace Operation SetOperationStrategy GetValue.
End RefFloat.

Module ValInt.
Import ValueSemantics.IntValue.
Definition strategy (b : Behaviour) : OperationStrategy :=
  match b with
  | Increment => IncrementIntValueOperationStrategy_
  | Decrement => GetDecrementIntValueOperationStrategy
  end.
Definition run := run Operation SetOperationStrategy.
Definition trace := trace Operation SetOperationStrategy GetValue.
End ValInt.

Module ValFloat.
Import ValueSemantics.FloatValue.
Definition strategy (b : Behaviour) : OperationStrategy :=
  match b with
  | Increment => IncrementFloatValueOperationStrategy_
  | Decrement => GetDecrementFloatValueOperationStrategy
  end.
Definition run := run Operation SetOperationStrategy.
Definition trace := trace Operation SetOperationStrategy GetValue.
End ValFloat.

(** The calls of the unit tests of both swappable designs: two
    operations, a swap to the decrement strategy, two operations. *)
Definition unit_test_calls {S : Type} (decrement : S) : list (Call S) :=
  [CallOperation; CallOperation;
   CallSetOperationStrategy decrement;
   CallOperation; CallOperation].

(** A call that hands over a strategy hands over a present one. *)
Definition Call_has_strategyb {X : Type} (call : Call (option X)) : bool :=
  match call with
  | CallSetOperationStrategy None => false
  | _ => true
  end.

(** The strategy argument of a client that may also hand over nothing
    (a null pointer, an empty function): [None] is the absent strategy. *)
Definition handed {X : Type} (strategy : Behaviour -> option X)
  (b : option Behaviour) : option X :=
  match b with
  | Some b' => strategy b'
  | None => None
  end.

(** Containers of two designs, or of the two scalar types, that stand
    for each other. *)
Module Related.

(** Same scalar, and strategies of the same behaviour. *)
Definition designs_int (a : ReferenceSemantics.IntValue.t)
  (b : ValueSemantics.IntValue.t) : Prop :=
  ReferenceSemantics.IntValue.m_Value a = ValueSemantics.IntValue.m_Value b
  /\ exists x, ReferenceSemantics.IntValue.m_OperationStrategy a = RefInt.strategy x
               /\ ValueSemantics.IntValue.m_OperationStrategy b = ValInt.strategy x.

Definition designs_float (a : ReferenceSemantics.FloatValue.t)
  (b : ValueSemantics.FloatValue.t) : Prop :=
  ReferenceSemantics.FloatValue.m_Value a = ValueSemantics.FloatValue.m_Value b
  /\ exists x, ReferenceSemantics.FloatValue.m_OperationStrategy a = RefFloat.strategy x
               /\ ValueSemantics.FloatValue.m_OperationStrategy b = ValFloat.strategy x.

(** An int container and a float container: the float scalar is the
    image of the int scalar, which lies where unit steps are exact, and
    the strategies have the same behaviour. *)
Definition scalars (a : ReferenceSemantics.IntValue.t)
  (b : ReferenceSemantics.FloatValue.t) : Prop :=
  Float32.exact_int (ReferenceSemantics.IntValue.m_Value a)
  /\ ReferenceSemantics.FloatValue.m_Value b
     = Float32.of_Z (ReferenceSemantics.IntValue.m_Value a)
  /\ exists x, ReferenceSemantics.IntValue.m_OperationStrategy a = RefInt.strategy x
               /\ ReferenceSemantics.FloatValue.m_OperationStrategy b = RefFloat.strategy x.

End Related.

(** The calls of the round trip: one operation with the strategy the
    container has, a swap to [back], one more operation. *)
Definition round_trip_calls {S : Type} (back : S) : list (Call S) :=
  [CallOperation; CallSetOperationStrategy back; CallOperation].

(* ===================================================================== *)
(** ** What the factory is documented to build *)
(* ===================================================================== *)

(** The container the documentation of [CreateRandomValue] describes for
    a first draw [isInt] and a second draw [isIncrement]: scalar [0]
    (or [0.0f]) and the drawn behaviour. *)
Module Documented.

Definition behaviour (isIncrement : bool) : Behaviour :=
  if isIncrement then Increment else Decrement.

(** The four behaviours on the scalars: [value += 1], [value -= 1],
    [value += 1.0], [value -= 1.0]. *)
Definition on_int (b : Behaviour) (value : Z) : Z :=
  match b with
  | Increment => Int32.add value 1
  | Decrement => Int32.sub value 1
  end.

Definition on_float (b : Behaviour) (value : Float32.t) : Float32.t :=
  match b with
  | Increment => Float32.add value Float32.one
  | Decrement => Float32.sub value Float32.one
  end.

Definition ReferenceSemantics_Value (isInt isIncrement : bool)
  : ReferenceSemantics.Value :=
  if isInt
  then ReferenceSemantics.IsIntValue
         (ReferenceSemantics.IntValue.new 0 (RefInt.strategy (behaviour isIncrement)))
  else ReferenceSemantics.IsFloatValue
         (ReferenceSemantics.FloatValue.new Float32.zero
            (RefFloat.strategy (behaviour isIncrement))).

Definition ValueSemantics_Value (isInt isIncrement : bool)
  : ValueSemantics.Value :=
  if isInt
  then ValueSemantics.IsIntValue
         (ValueSemantics.IntValue.new 0 (ValInt.strategy (behaviour isIncrement)))
  else ValueSemantics.IsFloatValue
         (ValueSemantics.FloatValue.new Float32.zero
            (ValFloat.strategy (behaviour isIncrement))).

Definition Template_Value (isInt isIncrement : bool) : Template.Value :=
  match isInt, isIncrement with
  | true, true => Template.IsIncrementIntValue (Template.IntValue.new 0)
  | true, false => Template.IsDecrementIntValue (Template.IntValue.new 0)
  | false, true => Template.IsIncrementFloatValue (Template.FloatValue.new Float32.zero)
  | false, false => Template.IsDecrementFloatValue (Template.FloatValue.new Float32.zero)
  end.

(** Two draws from a source, in order, and the state they leave. *)
Definition two_draws {G : Type} `{Source G} (g : G) : bool * bool * G :=
  let (first, g1) := RandomBool g in
  let (second, g2) := RandomBool g1 in
  (first, second, g2).

End Documented.

(* ===================================================================== *)
(** ** The benchmarks *)
(* ===================================================================== *)

(** The body of the [BENCHMARK] block, which is the same text in the three
    namespaces: a vector is filled with [valueCount] products of the
    namespace's [CreateRandomValue], then [Operation()] is called once
    through each pointer, in order. *)
Module Benchmark.

(** [constexpr uint32_t valueCount{50'000}] *)
Definition valueCount : nat := Z.to_nat 50000.

Section Body.
Context {G Value : Type}.
Variable CreateRandomValue : G -> unique_ptr Value * G.
Variable Operation : Value -> outcome Value.

(** [for(uint32_t i{0}; i != valueCount; ++i)
       values.push_back(CreateRandomValue());]
    with [remaining] iterations to go. *)
Fixpoint fill (remaining : nat) (values : list (unique_ptr Value)) (g : G)
  : list (unique_ptr Value) * G :=
  match remaining with
  | O => (values, g)
  | S remaining' =>
      let (value, g') := CreateRandomValue g in
      fill remaining' (values ++ [value]) g'
  end.

(** [for(const std::unique_ptr<Value>& value: values) value->Operation();]
    The objects stay in the vector; a null pointer cannot be called
    through. *)
Fixpoint operate (values : list (unique_ptr Value))
  : outcome (list (unique_ptr Value)) :=
  match values with
  | [] => Done []
  | value :: rest =>
      match value with
      | None => Fault NullPointerDereference
      | Some object =>
          (object' <- Operation object ;;
           rest' <- operate rest ;;
           Done (make_unique object' :: rest'))%outcome
      end
  end.

Definition body (count : nat) (g : G) : outcome (list (unique_ptr Value)) * G :=
  let (values, g') := fill count [] g in
  (operate values, g').
End Body.

Definition ReferenceSemantics_Benchmark {G : Type} `{Source G} (g : G)
  : outcome (list (unique_ptr ReferenceSemantics.Value)) * G :=
  body ReferenceSemantics.CreateRandomValue ReferenceSemantics.Operation valueCount g.

Definition ValueSemantics_Benchmark {G : Type} `{Source G} (g : G)
  : outcome (list (unique_ptr ValueSemantics.Value)) * G :=
  body ValueSemantics.CreateRandomValue ValueSemantics.Operation valueCount g.

(** [Template::Value::Operation] has no failing branch. *)
Definition Template_Benchmark {G : Type} `{Source G} (g : G)
  : outcome (list (unique_ptr Template.Value)) * G :=
  body Template.CreateRandomValue (fun value => Done (Template.Operation value))
    valueCount g.

(** The scalar an object behind a [Value*] holds, read through the
    [GetValue()] of its class. *)
Inductive scalar : Type :=
| IntScalar (value : Z)
| FloatScalar (value : Float32.t).

Definition ReferenceSemantics_scalar (value : ReferenceSemantics.Value) : scalar :=
  match value with
  | ReferenceSemantics.IsIntValue v => IntScalar (ReferenceSemantics.IntValue.GetValue v)
  | ReferenceSemantics.IsFloatValue v =>
      FloatScalar (ReferenceSemantics.FloatValue.GetValue v)
  end.

Definition ValueSemantics_scalar (value : ValueSemantics.Value) : scalar :=
  match value with
  | ValueSemantics.IsIntValue v => IntScalar (ValueSemantics.IntValue.GetValue v)
  | ValueSemantics.IsFloatValue v => FloatScalar (ValueSemantics.FloatValue.GetValue v)
  end.

Definition Template_scalar (value : Template.Value) : scalar :=
  match value with
  | Template.IsIncrementIntValue v => IntScalar (Template.IntValue.GetValue v)
  | Template.IsDecrementIntValue v => IntScalar (Template.IntValue.GetValue v)
  | Template.IsIncrementFloatValue v => FloatScalar (Template.FloatValue.GetValue v)
  | Template.IsDecrementFloatValue v => FloatScalar (Template.FloatValue.GetValue v)
  end.

(** [count] pairs of draws, in the order they are made, and the state
    they leave. *)
Fixpoint drawn_pairs {G : Type} `{Source G} (count : nat) (g : G)
  : list (bool * bool) * G :=
  match count with
  | O => ([], g)
  | S count' =>
      let '(isInt, isIncrement, g1) := Documented.two_draws g in
      let (rest, g2) := drawn_pairs count' g1 in
      ((isInt, isIncrement) :: rest, g2)
  end.

(** The scalar a product of the factory holds after one operation: one
    step of the drawn behaviour from 0 (or 0.0f). *)
Definition operated (draws : bool * bool) : scalar :=
  let (isInt, isIncrement) := draws in
  if isInt
  then IntScalar (Documented.on_int (Documented.behaviour isIncrement) 0)
  else FloatScalar (Documented.on_float (Documented.behaviour isIncrement) Float32.zero).

End Benchmark.

(* ===================================================================== *)
(** ** Products of the factory, by what they do *)
(* ===================================================================== *)

(** [n] calls of [Operation()] in a row on one object, or the first
    fault. *)
Fixpoint operations {C : Type} (Operation : C -> outcome C) (n : nat) (c : C)
  : outcome C :=
  match n with
  | O => Done c
  | S n' => (c' <- Operation c ;; operations Operation n' c')%outcome
  end.

Module Factory.

(** The scalar the container described for the draws [isInt] and
    [isIncrement] holds after [n] operations: an int or a float
    according to the first draw, [n] steps of the behaviour of the second
    draw away from zero. *)
Definition expected (isInt isIncrement : bool) (n : nat) : Benchmark.scalar :=
  if isInt
  then Benchmark.IntScalar
         (Nat.iter n (Documented.on_int (Documented.behaviour isIncrement)) 0)
  else Benchmark.FloatScalar
         (Nat.iter n (Documented.on_float (Documented.behaviour isIncrement))
            Float32.zero).

End Factory.

(* ===================================================================== *)
(** ** Containers as counters *)
(* ===================================================================== *)

Module Counter.

Definition unit_step (x : Behaviour) : Z :=
  match x with
  | Increment => 1
  | Decrement => -1
  end.

(** The sum of the steps of a sequence of calls on a container whose
    strategy is [x]: every operation counts for the behaviour assigned
    when it is made. *)
Fixpoint net (x : Behaviour) (calls : list (Call Behaviour)) : Z :=
  match calls with
  | [] => 0
  | CallOperation :: rest => unit_step x + net x rest
  | CallSetOperationStrategy y :: rest => net y rest
  end.

(** The behaviour assigned after the calls. *)
Fixpoint last (x : Behaviour) (calls : list (Call Behaviour)) : Behaviour :=
  match calls with
  | [] => x
  | CallOperation :: rest => last x rest
  | CallSetOperationStrategy y :: rest => last y rest
  end.

(** Whether every operation of the sequence is made with a strategy
    assigned; [assigned] tells whether one is assigned at the start. *)
Fixpoint completes (assigned : bool) (calls : list (Call (option Behaviour))) : bool :=
  match calls with
  | [] => true
  | CallOperation :: rest => assigned && completes assigned rest
  | CallSetOperationStrategy (Some _) :: rest => completes true rest
  | CallSetOperationStrategy None :: rest => completes false rest
  end.

Definition is_assigned (o : option Behaviour) : bool :=
  match o with
  | Some _ => true
  | None => false
  end.

(** A float that no addition or subtraction of [1.0f] changes. *)
Definition stuck (v : Float32.t) : bool :=
  match v with
  | S754_nan | S754_infinity _ => true
  | _ => false
  end.

End Counter.

(* ===================================================================== *)
(** ** Mantissas of small integers (used by the binary32 facts) *)
(* ===================================================================== *)

Module Mantissa.

(** [p * 2^k] for [0 <= k]. *)
Definition shl (p : positive) (k : Z) : positive :=
  match k with
  | Zpos k' => Pos.iter xO p k'
  | _ => p
  end.

(** A shift register holding [m] with no bit shifted out yet. *)
Definition exact_record (m : positive) : shr_record :=
  {| shr_m := Zpos m; shr_r := false; shr_s := false |}.

(** The normalised binary32 number of value [(-1)^s * p], for [p < 2^24]:
    the mantissa is [p] shifted up to 24 digits. *)
Definition canon (s : bool) (p : positive) : spec_float :=
  S754_finite s (shl p (24 - Zpos (digits2_pos p))) (Zpos (digits2_pos p) - 24).

End Mantissa.

(* ===================================================================== *)
(** ** Facts about the scalars *)
(* ===================================================================== *)

Module Int32Facts.
Import Int32.

Lemma wrap_in_range z : in_range (wrap z).
Proof.
  unfold in_range, wrap, min_signed, max_signed, modulus.
  pose proof (Z.mod_pos_bound (z - - 2 ^ 31) (2 ^ 32) ltac:(lia)). lia.
Qed.

Lemma wrap_small z : in_range z -> wrap z = z.
Proof.
  unfold in_range, wrap, min_signed, max_signed, modulus. intros H.
  rewrite Z.mod_small by lia. lia.
Qed.

Lemma wrap_shift z k : wrap (z + k * modulus) = wrap z.
Proof.
  unfold wrap. replace (z + k * modulus - min_signed)
    with (z - min_signed + k * modulus) by lia.
  now rewrite Z.mod_add by (unfold modulus; lia).
Qed.

(** [wrap] is a ring morphism's representative: wrapping an operand
    first does not change the wrapped sum. *)
Lemma wrap_add_l a b : wrap (wrap a + b) = wrap (a + b).
Proof.
  unfold wrap at 2.
  pose proof (Z.div_mod (a - min_signed) modulus ltac:(unfold modulus; lia)) as E.
  replace ((a - min_signed) mod modulus + min_signed + b)
    with (a + b + (- ((a - min_signed) / modulus)) * modulus) by lia.
  apply wrap_shift.
Qed.

Lemma add_1_exact v : in_range v -> v < max_signed -> add v 1 = v + 1.
Proof. unfold in_range, add. intros. apply wrap_small. unfold in_range. lia. Qed.

Lemma sub_1_exact v : in_range v -> min_signed < v -> sub v 1 = v - 1.
Proof. unfold in_range, sub. intros. apply wrap_small. unfold in_range. lia. Qed.

Lemma add_1_max : add max_signed 1 = min_signed.
Proof. reflexivity. Qed.

Lemma sub_1_min : sub min_signed 1 = max_signed.
Proof. reflexivity. Qed.

Lemma sub_add_1 v : in_range v -> sub (add v 1) 1 = v.
Proof.
  intros H. unfold sub, add.
  replace (wrap (v + 1) - 1) with (wrap (v + 1) + -1) by lia.
  rewrite wrap_add_l. replace (v + 1 + -1) with v by lia.
  now apply wrap_small.
Qed.

Lemma add_sub_1 v : in_range v -> add (sub v 1) 1 = v.
Proof.
  intros H. unfold sub, add.
  rewrite wrap_add_l. replace (v - 1 + 1) with v by lia.
  now apply wrap_small.
Qed.

End Int32Facts.

(** Binary32 addition and subtraction of [1.0f] are exact on the images of
    the integers between [-2^24] and [2^24]. The proof follows the
    rounding function: the sum of the aligned mantissas is [(n + 1) * 2^23]
    at exponent [-23], and normalising that number shifts out zeros only. *)
Module Float32Facts.
Import Mantissa.

Lemma shl_0 p : shl p 0 = p.
Proof. reflexivity. Qed.

Lemma shl_succ p k : 0 <= k -> shl p (Z.succ k) = xO (shl p k).
Proof.
  intros Hk. destruct k as [|k|k]; [reflexivity| |lia].
  change (Z.succ (Zpos k)) with (Zpos k + 1). 
  replace (Zpos k + 1) with (Zpos (Pos.succ k)) by lia.
  simpl. apply Pos.iter_succ.
Qed.

Lemma shl_value p k : 0 <= k -> Zpos (shl p k) = Zpos p * 2 ^ k.
Proof.
  intros Hk. pattern k. apply natlike_ind; [ | | exact Hk].
  - rewrite shl_0. lia.
  - intros x Hx IH. rewrite shl_succ by exact Hx.
    rewrite Z.pow_succ_r by exact Hx.
    change (Zpos (shl p x)~0) with (2 * Zpos (shl p x)). rewrite IH. lia.
Qed.

Lemma shl_digits p k :
  0 <= k -> Zpos (digits2_pos (shl p k)) = Zpos (digits2_pos p) + k.
Proof.
  intros Hk. pattern k. apply natlike_ind; [ | | exact Hk].
  - rewrite shl_0. lia.
  - intros x Hx IH. rewrite shl_succ by exact Hx. simpl digits2_pos.
    rewrite Pos2Z.inj_succ, IH. lia.
Qed.

Lemma shl_shl p j k : 0 <= j -> 0 <= k -> shl (shl p j) k = shl p (j + k).
Proof.
  intros Hj Hk. apply Pos2Z.inj. rewrite !shl_value by lia.
  rewrite Z.pow_add_r by lia. lia.
Qed.

Lemma digits2_pos_bounds p :
  2 ^ (Zpos (digits2_pos p) - 1) <= Zpos p < 2 ^ Zpos (digits2_pos p).
Proof.
  induction p as [p IH|p IH|]; simpl digits2_pos.
  - rewrite Pos2Z.inj_succ.
    replace (Z.succ (Zpos (digits2_pos p)) - 1) with (Z.succ (Zpos (digits2_pos p) - 1)) by lia.
    rewrite !Z.pow_succ_r by lia. rewrite Pos2Z.inj_xI.
    generalize dependent (2 ^ (Zpos (digits2_pos p) - 1)).
    generalize dependent (2 ^ Zpos (digits2_pos p)). intros. lia.
  - rewrite Pos2Z.inj_succ.
    replace (Z.succ (Zpos (digits2_pos p)) - 1) with (Z.succ (Zpos (digits2_pos p) - 1)) by lia.
    rewrite !Z.pow_succ_r by lia. change (Zpos p~0) with (2 * Zpos p).
    generalize dependent (2 ^ (Zpos (digits2_pos p) - 1)).
    generalize dependent (2 ^ Zpos (digits2_pos p)). intros; lia.
  - simpl. lia.
Qed.

Lemma digits2_pos_le p k : 0 <= k -> Zpos p < 2 ^ k -> Zpos (digits2_pos p) <= k.
Proof.
  intros Hk Hp. destruct (digits2_pos_bounds p) as [Hlo _].
  destruct (Z_le_gt_dec (Zpos (digits2_pos p)) k) as [Hle|Hgt]; [exact Hle|].
  exfalso. assert (2 ^ k <= 2 ^ (Zpos (digits2_pos p) - 1)) by (apply Z.pow_le_mono_r; lia).
  lia.
Qed.

Lemma shl_align_le mx ex ex' :
  ex' <= ex -> shl_align mx ex ex' = (shl mx (ex - ex'), ex').
Proof.
  intros H. unfold shl_align, shl.
  destruct (ex' - ex) as [|d|d] eqn:E.
  - assert (ex' = ex) by lia. subst. rewrite Z.sub_diag. reflexivity.
  - lia.
  - replace (ex - ex') with (Zpos d) by lia. reflexivity.
Qed.

Lemma shl_align_ge mx ex ex' :
  ex <= ex' -> shl_align mx ex ex' = (mx, ex).
Proof.
  intros H. unfold shl_align.
  destruct (ex' - ex) as [|d|d] eqn:E; try reflexivity. lia.
Qed.

Lemma iter_pos_Pos_iter {A : Type} (f : A -> A) p x :
  iter_pos f p x = Pos.iter f x p.
Proof.
  revert x. induction p as [p IH|p IH|]; intros x; simpl.
  - rewrite !IH, !Pos.iter_swap. reflexivity.
  - rewrite !IH. reflexivity.
  - reflexivity.
Qed.

Lemma iter_shr_1_exact p k :
  iter_pos shr_1 k (exact_record (Pos.iter xO p k)) = exact_record p.
Proof.
  rewrite iter_pos_Pos_iter. induction k as [|k IH] using Pos.peano_ind.
  - reflexivity.
  - rewrite (Pos.iter_succ k _ xO), (Pos.iter_succ k _ shr_1), <- Pos.iter_swap.
    exact IH.
Qed.

Lemma shr_exact p j n e :
  0 <= n <= j ->
  shr (exact_record (shl p j)) e n = (exact_record (shl p (j - n)), e + n).
Proof.
  intros [Hn Hj]. destruct n as [|k|k]; [| |lia].
  - rewrite Z.sub_0_r, Z.add_0_r. reflexivity.
  - replace (shl p j) with (shl (shl p (j - Zpos k)) (Zpos k))
      by (rewrite shl_shl by lia; f_equal; lia).
    simpl shl at 1. unfold shr. rewrite iter_shr_1_exact. reflexivity.
Qed.

Lemma fexp_normal e : -125 <= e -> fexp 24 128 e = e - 24.
Proof. unfold fexp, emin. lia. Qed.

Lemma binary_round_aux_shl s q n e :
  0 <= n -> Zpos (digits2_pos q) = 24 -> -149 <= e + n <= 104 ->
  binary_round_aux 24 128 s (Zpos (shl q n)) e loc_Exact = S754_finite s q (e + n).
Proof.
  intros Hn Hq He. unfold binary_round_aux, shr_fexp.
  change (shr_record_of_loc (Zpos (shl q n)) loc_Exact) with (exact_record (shl q n)).
  change (Zdigits2 (Zpos (shl q n))) with (Zpos (digits2_pos (shl q n))).
  rewrite shl_digits, Hq by exact Hn.
  rewrite fexp_normal by lia.
  replace (24 + n + e - 24 - e) with n by lia.
  rewrite shr_exact by lia. rewrite Z.sub_diag, shl_0.
  change (round_nearest_even (shr_m (exact_record q)) (loc_of_shr_record (exact_record q)))
    with (Zpos q).
  change (shr_record_of_loc (Zpos q) loc_Exact) with (exact_record q).
  change (Zdigits2 (Zpos q)) with (Zpos (digits2_pos q)).
  rewrite Hq, fexp_normal by lia.
  replace (24 + (e + n) - 24 - (e + n)) with 0 by lia.
  change (shr (exact_record q) (e + n) 0) with (exact_record q, e + n).
  change (shr_m (exact_record q)) with (Zpos q). cbv beta iota.
  replace (e + n <=? 128 - 24) with true by (symmetry; apply Z.leb_le; lia).
  reflexivity.
Qed.

Lemma binary_round_scaled s p j :
  0 <= j -> Zpos p < 2 ^ 24 ->
  binary_round 24 128 s (shl p j) (- j) = canon s p.
Proof.
  intros Hj Hp. pose proof (digits2_pos_le p 24 ltac:(lia) Hp) as Hd.
  assert (0 < Zpos (digits2_pos p)) as Hd0 by lia.
  unfold binary_round, canon. rewrite shl_digits by exact Hj.
  set (d := Zpos (digits2_pos p)) in *.
  rewrite fexp_normal by lia.
  destruct (Z_lt_le_dec (d + j) 24) as [Hlt|Hge].
  - rewrite shl_align_le by lia. rewrite shl_shl by lia.
    replace (j + (- j - (d + j + - j - 24))) with (24 - d) by lia.
    replace (d + j + - j - 24) with (d - 24) by lia.
    rewrite <- (shl_0 (shl p (24 - d))) at 1.
    rewrite binary_round_aux_shl; try lia.
    + f_equal. lia.
    + rewrite shl_digits by lia. fold d. lia.
  - rewrite shl_align_ge by lia.
    replace (shl p j) with (shl (shl p (24 - d)) (d + j - 24))
      by (rewrite shl_shl by lia; f_equal; lia).
    rewrite binary_round_aux_shl; try lia.
    + f_equal. lia.
    + rewrite shl_digits by lia. fold d. lia.
Qed.

Lemma of_Z_pos p : Zpos p < 2 ^ 24 -> Float32.of_Z (Zpos p) = canon false p.
Proof.
  intros Hp. unfold Float32.of_Z, binary_normalize.
  rewrite <- (shl_0 p) at 1. apply (binary_round_scaled false p 0); [lia|exact Hp].
Qed.

Lemma of_Z_neg p : Zpos p < 2 ^ 24 -> Float32.of_Z (Zneg p) = canon true p.
Proof.
  intros Hp. unfold Float32.of_Z, binary_normalize.
  rewrite <- (shl_0 p) at 1. apply (binary_round_scaled true p 0); [lia|exact Hp].
Qed.

(** Normalising [k * 2^23] at exponent [-23] is converting [k]. *)
Lemma normalize_scaled k :
  - 2 ^ 24 < k < 2 ^ 24 ->
  binary_normalize 24 128 (k * 2 ^ 23) (-23) false = Float32.of_Z k.
Proof.
  intros Hk. destruct k as [|p|p].
  - reflexivity.
  - rewrite of_Z_pos by lia. rewrite <- (shl_value p 23) by lia.
    apply (binary_round_scaled false p 23); lia.
  - rewrite of_Z_neg by lia.
    replace (Zneg p * 2 ^ 23) with (Zneg (shl p 23))
      by (rewrite <- Pos2Z.opp_pos, shl_value by lia; lia).
    apply (binary_round_scaled true p 23); lia.
Qed.

Lemma aligned_canon s p :
  Zpos p < 2 ^ 24 ->
  let d := Zpos (digits2_pos p) in
  Z.min (d - 24) (-23) = -23 /\
  cond_Zopp s (Zpos (fst (shl_align (shl p (24 - d)) (d - 24) (-23))))
  = cond_Zopp s (Zpos p) * 2 ^ 23.
Proof.
  intros Hp d. pose proof (digits2_pos_le p 24 ltac:(lia) Hp) as Hd. fold d in Hd.
  assert (0 < d) as Hd0 by (unfold d; lia).
  split; [lia|].
  rewrite shl_align_le by lia. cbn [fst]. rewrite shl_shl by lia.
  replace (24 - d + (d - 24 - -23)) with 23 by lia.
  rewrite shl_value by lia. destruct s; unfold cond_Zopp; lia.
Qed.

Lemma add_canon_one s p :
  Zpos p < 2 ^ 24 ->
  Float32.add (canon s p) Float32.one
  = binary_normalize 24 128 ((cond_Zopp s (Zpos p) + 1) * 2 ^ 23) (-23) false.
Proof.
  intros Hp. destruct (aligned_canon s p Hp) as [Hmin Hal].
  unfold Float32.add, Float32.one, Float32.prec, Float32.emax, canon, SFadd.
  rewrite Hmin, Hal. f_equal.
  change (cond_Zopp false (Zpos (fst (shl_align 8388608 (-23) (-23))))) with (2 ^ 23).
  lia.
Qed.

Lemma sub_canon_one s p :
  Zpos p < 2 ^ 24 ->
  Float32.sub (canon s p) Float32.one
  = binary_normalize 24 128 ((cond_Zopp s (Zpos p) - 1) * 2 ^ 23) (-23) false.
Proof.
  intros Hp. destruct (aligned_canon s p Hp) as [Hmin Hal].
  unfold Float32.sub, Float32.one, Float32.prec, Float32.emax, canon, SFsub.
  rewrite Hmin, Hal. f_equal.
  change (cond_Zopp false (Zpos (fst (shl_align 8388608 (-23) (-23))))) with (2 ^ 23).
  lia.
Qed.

Lemma of_Z_canon n :
  - 2 ^ 24 < n < 2 ^ 24 -> n <> 0 ->
  exists s p, Zpos p < 2 ^ 24 /\ n = cond_Zopp s (Zpos p) /\ Float32.of_Z n = canon s p.
Proof.
  intros Hn Hn0. destruct n as [|p|p]; [congruence| |].
  - exists false, p. split; [lia|]. split; [reflexivity|]. apply of_Z_pos; lia.
  - exists true, p. split; [lia|]. split; [reflexivity|]. apply of_Z_neg; lia.
Qed.

Lemma add_of_Z_one n :
  - 2 ^ 24 <= n -> n + 1 <= 2 ^ 24 ->
  Float32.add (Float32.of_Z n) Float32.one = Float32.of_Z (n + 1).
Proof.
  intros Hlo Hhi.
  destruct (Z.eq_dec n (- 2 ^ 24)) as [->|Hn1]; [reflexivity|].
  destruct (Z.eq_dec n (2 ^ 24 - 1)) as [->|Hn2]; [reflexivity|].
  destruct (Z.eq_dec n 0) as [->|Hn3]; [reflexivity|].
  destruct (of_Z_canon n ltac:(lia) Hn3) as (s & p & Hp & -> & ->).
  rewrite add_canon_one by exact Hp. apply normalize_scaled. lia.
Qed.

Lemma sub_of_Z_one n :
  - 2 ^ 24 <= n - 1 -> n <= 2 ^ 24 ->
  Float32.sub (Float32.of_Z n) Float32.one = Float32.of_Z (n - 1).
Proof.
  intros Hlo Hhi.
  destruct (Z.eq_dec n (2 ^ 24)) as [->|Hn1]; [reflexivity|].
  destruct (Z.eq_dec n (- 2 ^ 24 + 1)) as [->|Hn2]; [reflexivity|].
  destruct (Z.eq_dec n 0) as [->|Hn3]; [reflexivity|].
  destruct (of_Z_canon n ltac:(lia) Hn3) as (s & p & Hp & -> & ->).
  rewrite sub_canon_one by exact Hp. apply normalize_scaled. lia.
Qed.

Lemma exact_intb_spec n : Float32.exact_intb n = true <-> Float32.exact_int n.
Proof.
  unfold Float32.exact_intb, Float32.exact_int.
  rewrite andb_true_iff, !Z.leb_le. tauto.
Qed.

Lemma exact_int_in_range n : Float32.exact_int n -> Int32.in_range n.
Proof.
  unfold Float32.exact_int, Float32.exact_bound, Int32.in_range,
    Int32.min_signed, Int32.max_signed. lia.
Qed.

(** The literals are the images of the integers they denote. *)
Lemma literals :
  Float32.zero = Float32.of_Z 0 /\ Float32.one = Float32.of_Z 1 /\
  Float32.two = Float32.of_Z 2 /\ Float32.minus_one = Float32.of_Z (-1) /\
  Float32.minus_two = Float32.of_Z (-2).
Proof. repeat split; reflexivity. Qed.

End Float32Facts.

(* ===================================================================== *)
(** ** The unit tests *)
(* ===================================================================== *)

(** C1. In the reference-semantics and the value-semantics design, for the
    int and the float container: a container built with 0 (0.0f) and the
    increment strategy reads 1 then 2 after two operations, still 2 after
    the swap to the decrement strategy, and 1 then 0 after two more
    operations. These are the values the unit tests require after each
    call; all five calls complete. *)
Theorem swappable_unit_tests :
  RefInt.trace (unit_test_calls (RefInt.strategy Decrement))
    (ReferenceSemantics.IntValue.new 0 (RefInt.strategy Increment))
  = [1; 2; 2; 1; 0]
  /\ RefFloat.trace (unit_test_calls (RefFloat.strategy Decrement))
       (ReferenceSemantics.FloatValue.new Float32.zero (RefFloat.strategy Increment))
     = [Float32.one; Float32.two; Float32.two; Float32.one; Float32.zero]
  /\ ValInt.trace (unit_test_calls (ValInt.strategy Decrement))
       (ValueSemantics.IntValue.new 0 (ValInt.strategy Increment))
     = [1; 2; 2; 1; 0]
  /\ ValFloat.trace (unit_test_calls (ValFloat.strategy Decrement))
       (ValueSemantics.FloatValue.new Float32.zero (ValFloat.strategy Increment))
     = [Float32.one; Float32.two; Float32.two; Float32.one; Float32.zero].
Proof. repeat split; reflexivity. Qed.

(** The tests call [Operation()] through a [Value*] that points to the
    container: the virtual call runs the container's own [Operation]. *)
Lemma Value_Operation_dispatch :
  (forall v, ReferenceSemantics.Operation (ReferenceSemantics.IsIntValue v)
             = bind (ReferenceSemantics.IntValue.Operation v)
                 (fun v' => Done (ReferenceSemantics.IsIntValue v')))
  /\ (forall v, ReferenceSemantics.Operation (ReferenceSemantics.IsFloatValue v)
                = bind (ReferenceSemantics.FloatValue.Operation v)
                    (fun v' => Done (ReferenceSemantics.IsFloatValue v')))
  /\ (forall v, ValueSemantics.Operation (ValueSemantics.IsIntValue v)
                = bind (ValueSemantics.IntValue.Operation v)
                    (fun v' => Done (ValueSemantics.IsIntValue v')))
  /\ (forall v, ValueSemantics.Operation (ValueSemantics.IsFloatValue v)
                = bind (ValueSemantics.FloatValue.Operation v)
                    (fun v' => Done (ValueSemantics.IsFloatValue v')))
  /\ (forall v, Template.Operation (Template.IsIncrementIntValue v)
                = Template.IsIncrementIntValue (Template.IntValue.Operation v))
  /\ (forall v, Template.Operation (Template.IsDecrementIntValue v)
                = Template.IsDecrementIntValue (Template.IntValue.Operation v))
  /\ (forall v, Template.Operation (Template.IsIncrementFloatValue v)
                = Template.IsIncrementFloatValue (Template.FloatValue.Operation v))
  /\ (forall v, Template.Operation (Template.IsDecrementFloatValue v)
                = Template.IsDecrementFloatValue (Template.FloatValue.Operation v)).
Proof. repeat split. Qed.

(** The comparisons of the float tests are made with [==]; on the values
    the tests meet it agrees with the equality used above. *)
Lemma float_literals_compare_equal :
  forallb (fun x => Float32.eqb x x)
    [Float32.zero; Float32.one; Float32.two; Float32.minus_one; Float32.minus_two]
  = true.
Proof. reflexivity. Qed.

(** C6. In the template design a container instantiated with the
    increment strategy and built with 0 reads 1 then 2 after two
    operations; one instantiated with the decrement strategy reads -1
    then -2. The same holds for the float container. *)
Theorem template_unit_tests :
  let IncInt := Template.IntValue.t Template.IntValue.IncrementIntValueOperationStrategy in
  let DecInt := Template.IntValue.t Template.IntValue.DecrementIntValueOperationStrategy in
  let IncFloat :=
    Template.FloatValue.t Template.FloatValue.IncrementFloatValueOperationStrategy in
  let DecFloat :=
    Template.FloatValue.t Template.FloatValue.DecrementFloatValueOperationStrategy in
  let intValue : IncInt := Template.IntValue.new 0 in
  let intValue' : DecInt := Template.IntValue.new 0 in
  let floatValue : IncFloat := Template.FloatValue.new Float32.zero in
  let floatValue' : DecFloat := Template.FloatValue.new Float32.zero in
  (Template.IntValue.GetValue intValue = 0
   /\ Template.IntValue.GetValue (Template.IntValue.Operation intValue) = 1
   /\ Template.IntValue.GetValue
        (Template.IntValue.Operation (Template.IntValue.Operation intValue)) = 2)
  /\ (Template.IntValue.GetValue intValue' = 0
      /\ Template.IntValue.GetValue (Template.IntValue.Operation intValue') = -1
      /\ Template.IntValue.GetValue
           (Template.IntValue.Operation (Template.IntValue.Operation intValue')) = -2)
  /\ (Template.FloatValue.GetValue floatValue = Float32.zero
      /\ Template.FloatValue.GetValue (Template.FloatValue.Operation floatValue)
         = Float32.one
      /\ Template.FloatValue.GetValue
           (Template.FloatValue.Operation (Template.FloatValue.Operation floatValue))
         = Float32.two)
  /\ (Template.FloatValue.GetValue floatValue' = Float32.zero
      /\ Template.FloatValue.GetValue (Template.FloatValue.Operation floatValue')
         = Float32.minus_one
      /\ Template.FloatValue.GetValue
           (Template.FloatValue.Operation (Template.FloatValue.Operation floatValue'))
         = Float32.minus_two).
Proof. repeat split; reflexivity. Qed.

(* ===================================================================== *)
(** ** One call *)
(* ===================================================================== *)

(** C2. One [Operation()] call applies the assigned behaviour to the
    scalar, whatever the scalar is: increment stores [value + 1] (int32
    addition) or [value + 1.0f] (binary32 addition), decrement stores
    [value - 1] or [value - 1.0f]; nothing else of the container changes.
    This holds in the three designs. For the template design the
    container is written out member by member, before and after the
    call: the scalar member becomes the sum, the strategy member stays. *)
Theorem Operation_applies_behaviour :
  (* reference semantics *)
  (forall v,
      ReferenceSemantics.IntValue.Operation
        (ReferenceSemantics.IntValue.new v
           (make_unique ReferenceSemantics.IntValue.IncrementIntValueOperationStrategy))
      = Done (ReferenceSemantics.IntValue.new (Int32.add v 1)
                (make_unique ReferenceSemantics.IntValue.IncrementIntValueOperationStrategy)))
  /\ (forall v,
      ReferenceSemantics.IntValue.Operation
        (ReferenceSemantics.IntValue.new v
           (make_unique ReferenceSemantics.IntValue.DecrementIntValueOperationStrategy))
      = Done (ReferenceSemantics.IntValue.new (Int32.sub v 1)
                (make_unique ReferenceSemantics.IntValue.DecrementIntValueOperationStrategy)))
  /\ (forall v,
      ReferenceSemantics.FloatValue.Operation
        (ReferenceSemantics.FloatValue.new v
           (make_unique ReferenceSemantics.FloatValue.IncrementFloatValueOperationStrategy))
      = Done (ReferenceSemantics.FloatValue.new (Float32.add v Float32.one)
                (make_unique ReferenceSemantics.FloatValue.IncrementFloatValueOperationStrategy)))
  /\ (forall v,
      ReferenceSemantics.FloatValue.Operation
        (ReferenceSemantics.FloatValue.new v
           (make_unique ReferenceSemantics.FloatValue.DecrementFloatValueOperationStrategy))
      = Done (ReferenceSemantics.FloatValue.new (Float32.sub v Float32.one)
                (make_unique ReferenceSemantics.FloatValue.DecrementFloatValueOperationStrategy)))
  (* value semantics *)
  /\ (forall v,
      ValueSemantics.IntValue.Operation
        (ValueSemantics.IntValue.new v
           ValueSemantics.IntValue.IncrementIntValueOperationStrategy_)
      = Done (ValueSemantics.IntValue.new (Int32.add v 1)
                ValueSemantics.IntValue.IncrementIntValueOperationStrategy_))
  /\ (forall v,
      ValueSemantics.IntValue.Operation
        (ValueSemantics.IntValue.new v
           ValueSemantics.IntValue.GetDecrementIntValueOperationStrategy)
      = Done (ValueSemantics.IntValue.new (Int32.sub v 1)
                ValueSemantics.IntValue.GetDecrementIntValueOperationStrategy))
  /\ (forall v,
      ValueSemantics.FloatValue.Operation
        (ValueSemantics.FloatValue.new v
           ValueSemantics.FloatValue.IncrementFloatValueOperationStrategy_)
      = Done (ValueSemantics.FloatValue.new (Float32.add v Float32.one)
                ValueSemantics.FloatValue.IncrementFloatValueOperationStrategy_))
  /\ (forall v,
      ValueSemantics.FloatValue.Operation
        (ValueSemantics.FloatValue.new v
           ValueSemantics.FloatValue.GetDecrementFloatValueOperationStrategy)
      = Done (ValueSemantics.FloatValue.new (Float32.sub v Float32.one)
                ValueSemantics.FloatValue.GetDecrementFloatValueOperationStrategy))
  (* template: the container before and after, member by member *)
  /\ (forall (s : Template.IntValue.IncrementIntValueOperationStrategy) (v : Z),
      Template.IntValue.Operation
        {| Template.IntValue.m_OperationStrategy := s; Template.IntValue.m_Value := v |}
      = {| Template.IntValue.m_OperationStrategy := s;
           Template.IntValue.m_Value := Int32.add v 1 |})
  /\ (forall (s : Template.IntValue.DecrementIntValueOperationStrategy) (v : Z),
      Template.IntValue.Operation
        {| Template.IntValue.m_OperationStrategy := s; Template.IntValue.m_Value := v |}
      = {| Template.IntValue.m_OperationStrategy := s;
           Template.IntValue.m_Value := Int32.sub v 1 |})
  /\ (forall (s : Template.FloatValue.IncrementFloatValueOperationStrategy)
             (v : Float32.t),
      Template.FloatValue.Operation
        {| Template.FloatValue.m_OperationStrategy := s;
           Template.FloatValue.m_Value := v |}
      = {| Template.FloatValue.m_OperationStrategy := s;
           Template.FloatValue.m_Value := Float32.add v Float32.one |})
  /\ (forall (s : Template.FloatValue.DecrementFloatValueOperationStrategy)
             (v : Float32.t),
      Template.FloatValue.Operation
        {| Template.FloatValue.m_OperationStrategy := s;
           Template.FloatValue.m_Value := v |}
      = {| Template.FloatValue.m_OperationStrategy := s;
           Template.FloatValue.m_Value := Float32.sub v Float32.one |}).
Proof. repeat split; intros; reflexivity. Qed.

(** Where the sum fits, int32 addition is the addition of the integers;
    at the two ends of the range it wraps around. *)
Lemma int_behaviours_in_range v :
  Int32.in_range v ->
  (v < Int32.max_signed -> Documented.on_int Increment v = v + 1)
  /\ (Int32.min_signed < v -> Documented.on_int Decrement v = v - 1)
  /\ Documented.on_int Increment Int32.max_signed = Int32.min_signed
  /\ Documented.on_int Decrement Int32.min_signed = Int32.max_signed.
Proof.
  intros Hv. repeat split.
  - now apply Int32Facts.add_1_exact.
  - now apply Int32Facts.sub_1_exact.
Qed.

(** C7. [SetOperationStrategy] stores the strategy it is given and leaves
    the scalar as it was: [GetValue()] returns the same before and after
    the call, for every state of a reference-semantics or value-semantics
    container and every strategy argument, an empty one included. *)
Theorem SetOperationStrategy_keeps_value :
  (forall s this,
      ReferenceSemantics.IntValue.GetValue
        (ReferenceSemantics.IntValue.SetOperationStrategy s this)
      = ReferenceSemantics.IntValue.GetValue this
      /\ ReferenceSemantics.IntValue.m_OperationStrategy
           (ReferenceSemantics.IntValue.SetOperationStrategy s this) = s)
  /\ (forall s this,
      ReferenceSemantics.FloatValue.GetValue
        (ReferenceSemantics.FloatValue.SetOperationStrategy s this)
      = ReferenceSemantics.FloatValue.GetValue this
      /\ ReferenceSemantics.FloatValue.m_OperationStrategy
           (ReferenceSemantics.FloatValue.SetOperationStrategy s this) = s)
  /\ (forall s this,
      ValueSemantics.IntValue.GetValue
        (ValueSemantics.IntValue.SetOperationStrategy s this)
      = ValueSemantics.IntValue.GetValue this
      /\ ValueSemantics.IntValue.m_OperationStrategy
           (ValueSemantics.IntValue.SetOperationStrategy s this) = s)
  /\ (forall s this,
      ValueSemantics.FloatValue.GetValue
        (ValueSemantics.FloatValue.SetOperationStrategy s this)
      = ValueSemantics.FloatValue.GetValue this
      /\ ValueSemantics.FloatValue.m_OperationStrategy
           (ValueSemantics.FloatValue.SetOperationStrategy s this) = s).
Proof. repeat split. Qed.

(* ===================================================================== *)
(** ** Sequences of calls *)
(* ===================================================================== *)

Section ClientFacts.
Context {C S V : Type}.
Variable Operation : C -> outcome C.
Variable SetOperationStrategy : S -> C -> C.
Variable GetValue : C -> V.

(** An invariant that makes [Operation] succeed, and the calls that
    establish it. *)
Variable Inv : C -> Prop.
Variable allowed : Call S -> bool.
Hypothesis Operation_Inv :
  forall c, Inv c -> exists c', Operation c = Done c' /\ Inv c'.
Hypothesis Set_Inv :
  forall s c, allowed (CallSetOperationStrategy s) = true ->
              Inv (SetOperationStrategy s c).

Lemma step_Inv call c :
  Inv c -> allowed call = true ->
  exists c', step Operation SetOperationStrategy call c = Done c' /\ Inv c'.
Proof.
  intros Hc Hcall. destruct call as [|s]; simpl.
  - now apply Operation_Inv.
  - eexists; split; [reflexivity|]. now apply Set_Inv.
Qed.

Lemma run_Inv calls :
  forall c, Inv c -> forallb allowed calls = true ->
  exists c', run Operation SetOperationStrategy calls c = Done c' /\ Inv c'.
Proof.
  induction calls as [|call rest IH]; intros c Hc Hcalls; simpl.
  - now exists c.
  - simpl in Hcalls. apply andb_true_iff in Hcalls as [Hcall Hrest].
    destruct (step_Inv call c Hc Hcall) as (c1 & -> & Hc1). simpl.
    now apply IH.
Qed.

Lemma trace_Inv_length calls :
  forall c, Inv c -> forallb allowed calls = true ->
  length (trace Operation SetOperationStrategy GetValue calls c) = length calls.
Proof.
  induction calls as [|call rest IH]; intros c Hc Hcalls; simpl.
  - reflexivity.
  - simpl in Hcalls. apply andb_true_iff in Hcalls as [Hcall Hrest].
    destruct (step_Inv call c Hc Hcall) as (c1 & -> & Hc1). simpl.
    f_equal. now apply IH.
Qed.

End ClientFacts.

Section Simulation.
Context {C1 S1 C2 S2 V : Type}.
Variable Operation1 : C1 -> outcome C1.
Variable SetOperationStrategy1 : S1 -> C1 -> C1.
Variable GetValue1 : C1 -> V.
Variable Operation2 : C2 -> outcome C2.
Variable SetOperationStrategy2 : S2 -> C2 -> C2.
Variable GetValue2 : C2 -> V.
Variable strategy1 : Behaviour -> S1.
Variable strategy2 : Behaviour -> S2.

Variable R : C1 -> C2 -> Prop.
Hypothesis R_GetValue : forall a b, R a b -> GetValue1 a = GetValue2 b.
Hypothesis R_SetOperationStrategy :
  forall x a b, R a b ->
    R (SetOperationStrategy1 (strategy1 x) a) (SetOperationStrategy2 (strategy2 x) b).
Hypothesis R_Operation :
  forall a b, R a b ->
    exists a' b', Operation1 a = Done a' /\ Operation2 b = Done b' /\ R a' b'.

Lemma simulation_step call a b :
  R a b ->
  exists a' b',
    step Operation1 SetOperationStrategy1 (Call_map strategy1 call) a = Done a'
    /\ step Operation2 SetOperationStrategy2 (Call_map strategy2 call) b = Done b'
    /\ R a' b'.
Proof.
  intros Hab. destruct call as [|x]; simpl.
  - now apply R_Operation.
  - do 2 eexists. repeat split. now apply R_SetOperationStrategy.
Qed.

Lemma simulation_trace calls :
  forall a b, R a b ->
  trace Operation1 SetOperationStrategy1 GetValue1 (map (Call_map strategy1) calls) a
  = trace Operation2 SetOperationStrategy2 GetValue2 (map (Call_map strategy2) calls) b
  /\ length (trace Operation1 SetOperationStrategy1 GetValue1
               (map (Call_map strategy1) calls) a) = length calls.
Proof.
  induction calls as [|call rest IH]; intros a b Hab; simpl.
  - split; reflexivity.
  - destruct (simulation_step call a b Hab) as (a' & b' & -> & -> & Hab').
    destruct (IH a' b' Hab') as [IHt IHl]. simpl.
    rewrite IHl, (R_GetValue a' b' Hab'), IHt. split; reflexivity.
Qed.

Lemma simulation_run calls :
  forall a b, R a b ->
  exists a' b',
    run Operation1 SetOperationStrategy1 (map (Call_map strategy1) calls) a = Done a'
    /\ run Operation2 SetOperationStrategy2 (map (Call_map strategy2) calls) b = Done b'
    /\ R a' b'.
Proof.
  induction calls as [|call rest IH]; intros a b Hab; simpl.
  - now exists a, b.
  - destruct (simulation_step call a b Hab) as (a' & b' & -> & -> & Hab').
    simpl. now apply IH.
Qed.

End Simulation.

(* ===================================================================== *)
(** ** The two swappable designs agree *)
(* ===================================================================== *)

Lemma designs_int_new v x :
  Related.designs_int
    (ReferenceSemantics.IntValue.new v (RefInt.strategy x))
    (ValueSemantics.IntValue.new v (ValInt.strategy x)).
Proof. split; [reflexivity|]. now exists x. Qed.

Lemma designs_float_new v x :
  Related.designs_float
    (ReferenceSemantics.FloatValue.new v (RefFloat.strategy x))
    (ValueSemantics.FloatValue.new v (ValFloat.strategy x)).
Proof. split; [reflexivity|]. now exists x. Qed.

Lemma designs_int_Operation a b :
  Related.designs_int a b ->
  exists a' b',
    ReferenceSemantics.IntValue.Operation a = Done a'
    /\ ValueSemantics.IntValue.Operation b = Done b'
    /\ Related.designs_int a' b'.
Proof.
  destruct a as [sa va], b as [sb vb]. intros [Hv (x & Ha & Hb)].
  simpl in Hv, Ha, Hb. subst.
  destruct x; do 2 eexists; (split; [reflexivity|]); (split; [reflexivity|]);
    (split; [reflexivity|]).
  - now exists Increment.
  - now exists Decrement.
Qed.

Lemma designs_float_Operation a b :
  Related.designs_float a b ->
  exists a' b',
    ReferenceSemantics.FloatValue.Operation a = Done a'
    /\ ValueSemantics.FloatValue.Operation b = Done b'
    /\ Related.designs_float a' b'.
Proof.
  destruct a as [sa va], b as [sb vb]. intros [Hv (x & Ha & Hb)].
  simpl in Hv, Ha, Hb. subst.
  destruct x; do 2 eexists; (split; [reflexivity|]); (split; [reflexivity|]);
    (split; [reflexivity|]).
  - now exists Increment.
  - now exists Decrement.
Qed.

Lemma designs_int_trace calls a b :
  Related.designs_int a b ->
  RefInt.trace (map (Call_map RefInt.strategy) calls) a
  = ValInt.trace (map (Call_map ValInt.strategy) calls) b
  /\ length (RefInt.trace (map (Call_map RefInt.strategy) calls) a) = length calls.
Proof.
  apply simulation_trace.
  - now intros ? ? [Hv _].
  - intros x a0 b0 [Hv _]. split; [exact Hv|]. now exists x.
  - exact designs_int_Operation.
Qed.

Lemma designs_float_trace calls a b :
  Related.designs_float a b ->
  RefFloat.trace (map (Call_map RefFloat.strategy) calls) a
  = ValFloat.trace (map (Call_map ValFloat.strategy) calls) b
  /\ length (RefFloat.trace (map (Call_map RefFloat.strategy) calls) a) = length calls.
Proof.
  apply simulation_trace.
  - now intros ? ? [Hv _].
  - intros x a0 b0 [Hv _]. split; [exact Hv|]. now exists x.
  - exact designs_float_Operation.
Qed.

(** C4. A reference-semantics container and a value-semantics container
    built with the same scalar and the same behaviour, and driven by the
    same sequence of [Operation()] and [SetOperationStrategy(increment or
    decrement)] calls, return the same [GetValue()] after construction
    and after every call; no call faults, so there is one reading per
    call. This holds for the int
    and for the float containers, for every initial scalar and every
    finite sequence. *)
Theorem designs_observationally_equivalent :
  (forall (v : Z) (x : Behaviour) (calls : list (Call Behaviour)),
      ReferenceSemantics.IntValue.GetValue
        (ReferenceSemantics.IntValue.new v (RefInt.strategy x))
      = ValueSemantics.IntValue.GetValue
          (ValueSemantics.IntValue.new v (ValInt.strategy x))
      /\ RefInt.trace (map (Call_map RefInt.strategy) calls)
        (ReferenceSemantics.IntValue.new v (RefInt.strategy x))
      = ValInt.trace (map (Call_map ValInt.strategy) calls)
          (ValueSemantics.IntValue.new v (ValInt.strategy x))
      /\ length (RefInt.trace (map (Call_map RefInt.strategy) calls)
                   (ReferenceSemantics.IntValue.new v (RefInt.strategy x)))
         = length calls)
  /\ (forall (v : Float32.t) (x : Behaviour) (calls : list (Call Behaviour)),
      ReferenceSemantics.FloatValue.GetValue
        (ReferenceSemantics.FloatValue.new v (RefFloat.strategy x))
      = ValueSemantics.FloatValue.GetValue
          (ValueSemantics.FloatValue.new v (ValFloat.strategy x))
      /\ RefFloat.trace (map (Call_map RefFloat.strategy) calls)
        (ReferenceSemantics.FloatValue.new v (RefFloat.strategy x))
      = ValFloat.trace (map (Call_map ValFloat.strategy) calls)
          (ValueSemantics.FloatValue.new v (ValFloat.strategy x))
      /\ length (RefFloat.trace (map (Call_map RefFloat.strategy) calls)
                   (ReferenceSemantics.FloatValue.new v (RefFloat.strategy x)))
         = length calls).
Proof.
  split; intros v x calls; (split; [reflexivity|]).
  - apply designs_int_trace, designs_int_new.
  - apply designs_float_trace, designs_float_new.
Qed.

(* ===================================================================== *)
(** ** Operation cannot fault once a strategy is assigned *)
(* ===================================================================== *)

(** The branch the precondition excludes: with no strategy assigned the
    call does not complete. *)
Lemma Operation_without_strategy :
  (forall v, ReferenceSemantics.IntValue.Operation
               (ReferenceSemantics.IntValue.new v nullptr)
             = Fault NullPointerDereference)
  /\ (forall v, ReferenceSemantics.FloatValue.Operation
                  (ReferenceSemantics.FloatValue.new v nullptr)
                = Fault NullPointerDereference)
  /\ (forall v, ValueSemantics.IntValue.Operation
                  (ValueSemantics.IntValue.new v None)
                = Fault BadFunctionCall)
  /\ (forall v, ValueSemantics.FloatValue.Operation
                  (ValueSemantics.FloatValue.new v None)
                = Fault BadFunctionCall).
Proof. repeat split. Qed.

Lemma handed_allowed {X : Type} (strategy : Behaviour -> option X) o :
  (forall x, strategy x <> None) ->
  Call_has_strategyb (CallSetOperationStrategy o) = true ->
  handed strategy o <> None.
Proof. intros Hs. destruct o as [x|]; simpl; [intros _; apply Hs|discriminate]. Qed.

Lemma Call_map_handed_allowed {X : Type} (strategy : Behaviour -> option X) calls :
  (forall x, strategy x <> None) ->
  forallb Call_has_strategyb calls = true ->
  forallb Call_has_strategyb (map (Call_map (handed strategy)) calls) = true.
Proof.
  intros Hs. induction calls as [|call rest IH]; simpl; [reflexivity|].
  intros H. apply andb_true_iff in H as [Hcall Hrest].
  rewrite (IH Hrest), andb_true_r.
  destruct call as [|[x|]]; simpl in *; try reflexivity; try discriminate.
  specialize (Hs x). destruct (strategy x); [reflexivity|congruence].
Qed.

Lemma RefInt_run_safe calls c :
  ReferenceSemantics.IntValue.m_OperationStrategy c <> nullptr ->
  forallb Call_has_strategyb calls = true ->
  exists c', RefInt.run calls c = Done c'
             /\ ReferenceSemantics.IntValue.m_OperationStrategy c' <> nullptr.
Proof.
  apply (run_Inv ReferenceSemantics.IntValue.Operation
           ReferenceSemantics.IntValue.SetOperationStrategy
           (fun c => ReferenceSemantics.IntValue.m_OperationStrategy c <> nullptr)
           Call_has_strategyb).
  - intros [[s|] v] H; [|now elim H]. eexists; split; [reflexivity|].
    destruct s; discriminate.
  - intros [s|] c0 H; [discriminate|discriminate H].
Qed.

Lemma RefFloat_run_safe calls c :
  ReferenceSemantics.FloatValue.m_OperationStrategy c <> nullptr ->
  forallb Call_has_strategyb calls = true ->
  exists c', RefFloat.run calls c = Done c'
             /\ ReferenceSemantics.FloatValue.m_OperationStrategy c' <> nullptr.
Proof.
  apply (run_Inv ReferenceSemantics.FloatValue.Operation
           ReferenceSemantics.FloatValue.SetOperationStrategy
           (fun c => ReferenceSemantics.FloatValue.m_OperationStrategy c <> nullptr)
           Call_has_strategyb).
  - intros [[s|] v] H; [|now elim H]. eexists; split; [reflexivity|].
    destruct s; discriminate.
  - intros [s|] c0 H; [discriminate|discriminate H].
Qed.

Lemma ValInt_run_safe calls c :
  ValueSemantics.IntValue.m_OperationStrategy c <> None ->
  forallb Call_has_strategyb calls = true ->
  exists c', ValInt.run calls c = Done c'
             /\ ValueSemantics.IntValue.m_OperationStrategy c' <> None.
Proof.
  apply (run_Inv ValueSemantics.IntValue.Operation
           ValueSemantics.IntValue.SetOperationStrategy
           (fun c => ValueSemantics.IntValue.m_OperationStrategy c <> None)
           Call_has_strategyb).
  - intros [[s|] v] H; [|now elim H]. eexists; split; [reflexivity|].
    destruct s; discriminate.
  - intros [s|] c0 H; [discriminate|discriminate H].
Qed.

Lemma ValFloat_run_safe calls c :
  ValueSemantics.FloatValue.m_OperationStrategy c <> None ->
  forallb Call_has_strategyb calls = true ->
  exists c', ValFloat.run calls c = Done c'
             /\ ValueSemantics.FloatValue.m_OperationStrategy c' <> None.
Proof.
  apply (run_Inv ValueSemantics.FloatValue.Operation
           ValueSemantics.FloatValue.SetOperationStrategy
           (fun c => ValueSemantics.FloatValue.m_OperationStrategy c <> None)
           Call_has_strategyb).
  - intros [[s|] v] H; [|now elim H]. eexists; split; [reflexivity|].
    destruct s; discriminate.
  - intros [s|] c0 H; [discriminate|discriminate H].
Qed.

(** C8. [Operation()] cannot fail on a container that was built with a
    strategy and was only ever handed strategies: whatever the scalar,
    the behaviour chosen at construction and the sequence of calls, every
    call completes, and the container still has a strategy afterwards, so
    the branch that calls through a null pointer (reference semantics) or
    an empty function (value semantics) is never taken. *)
Theorem Operation_never_faults
  (v : Z) (f : Float32.t) (x : Behaviour) (calls : list (Call (option Behaviour))) :
  forallb Call_has_strategyb calls = true ->
  (exists c,
      RefInt.run (map (Call_map (handed RefInt.strategy)) calls)
        (ReferenceSemantics.IntValue.new v (RefInt.strategy x)) = Done c
      /\ ReferenceSemantics.IntValue.m_OperationStrategy c <> nullptr)
  /\ (exists c,
      RefFloat.run (map (Call_map (handed RefFloat.strategy)) calls)
        (ReferenceSemantics.FloatValue.new f (RefFloat.strategy x)) = Done c
      /\ ReferenceSemantics.FloatValue.m_OperationStrategy c <> nullptr)
  /\ (exists c,
      ValInt.run (map (Call_map (handed ValInt.strategy)) calls)
        (ValueSemantics.IntValue.new v (ValInt.strategy x)) = Done c
      /\ ValueSemantics.IntValue.m_OperationStrategy c <> None)
  /\ (exists c,
      ValFloat.run (map (Call_map (handed ValFloat.strategy)) calls)
        (ValueSemantics.FloatValue.new f (ValFloat.strategy x)) = Done c
      /\ ValueSemantics.FloatValue.m_OperationStrategy c <> None).
Proof.
  intros Hcalls. repeat split.
  - apply RefInt_run_safe.
    + destruct x; discriminate.
    + apply Call_map_handed_allowed; [intros []; discriminate|exact Hcalls].
  - apply RefFloat_run_safe.
    + destruct x; discriminate.
    + apply Call_map_handed_allowed; [intros []; discriminate|exact Hcalls].
  - apply ValInt_run_safe.
    + destruct x; discriminate.
    + apply Call_map_handed_allowed; [intros []; discriminate|exact Hcalls].
  - apply ValFloat_run_safe.
    + destruct x; discriminate.
    + apply Call_map_handed_allowed; [intros []; discriminate|exact Hcalls].
Qed.

Lemma unit_test_calls_complete :
  let calls := unit_test_calls (Some Decrement) in
  forallb Call_has_strategyb calls = true
  /\ (exists c,
        RefInt.run (map (Call_map (handed RefInt.strategy)) calls)
          (ReferenceSemantics.IntValue.new 0 (RefInt.strategy Increment)) = Done c
        /\ ReferenceSemantics.IntValue.m_OperationStrategy c <> nullptr).
Proof.
  split.
  - reflexivity.
  - apply (Operation_never_faults 0 Float32.zero Increment
             (unit_test_calls (Some Decrement))).
    reflexivity.
Defined.

(** The precondition is needed: a client that hands over an empty
    strategy makes the next operation fault. *)
Lemma fault_after_empty_strategy :
  RefInt.run (map (Call_map (handed RefInt.strategy))
                [CallSetOperationStrategy None; CallOperation])
    (ReferenceSemantics.IntValue.new 0 (RefInt.strategy Increment))
  = Fault NullPointerDereference
  /\ ValInt.run (map (Call_map (handed ValInt.strategy))
                   [CallSetOperationStrategy None; CallOperation])
       (ValueSemantics.IntValue.new 0 (ValInt.strategy Increment))
     = Fault BadFunctionCall.
Proof. split; reflexivity. Qed.

(* ===================================================================== *)
(** ** Operation leaves the strategy alone *)
(* ===================================================================== *)

Ltac repeat_Operation n x v :=
  let IH := fresh "IH" in
  revert v; induction n as [|n IH]; intros v;
  [ reflexivity
  | cbn [repeat]; rewrite Nat.iter_succ, <- Nat.iter_swap, <- IH;
    destruct x; reflexivity ].

Lemma RefInt_repeat_Operation n x v :
  RefInt.run (repeat CallOperation n)
    (ReferenceSemantics.IntValue.new v (RefInt.strategy x))
  = Done (ReferenceSemantics.IntValue.new (Nat.iter n (Documented.on_int x) v)
            (RefInt.strategy x)).
Proof. repeat_Operation n x v. Qed.

Lemma RefFloat_repeat_Operation n x v :
  RefFloat.run (repeat CallOperation n)
    (ReferenceSemantics.FloatValue.new v (RefFloat.strategy x))
  = Done (ReferenceSemantics.FloatValue.new (Nat.iter n (Documented.on_float x) v)
            (RefFloat.strategy x)).
Proof. repeat_Operation n x v. Qed.

Lemma ValInt_repeat_Operation n x v :
  ValInt.run (repeat CallOperation n)
    (ValueSemantics.IntValue.new v (ValInt.strategy x))
  = Done (ValueSemantics.IntValue.new (Nat.iter n (Documented.on_int x) v)
            (ValInt.strategy x)).
Proof. repeat_Operation n x v. Qed.

Lemma ValFloat_repeat_Operation n x v :
  ValFloat.run (repeat CallOperation n)
    (ValueSemantics.FloatValue.new v (ValFloat.strategy x))
  = Done (ValueSemantics.FloatValue.new (Nat.iter n (Documented.on_float x) v)
            (ValFloat.strategy x)).
Proof. repeat_Operation n x v. Qed.

Ltac repeat_Template n this :=
  let IH := fresh "IH" in
  induction n as [|n IH];
  [ destruct this; reflexivity
  | rewrite !Nat.iter_succ, IH; destruct this; reflexivity ].

Lemma Template_repeat_Operation n :
  (forall this : Template.IntValue.t Template.IntValue.IncrementIntValueOperationStrategy,
      Nat.iter n Template.IntValue.Operation this
      = Template.IntValue.SetValue
          (Nat.iter n (Documented.on_int Increment) (Template.IntValue.GetValue this)) this)
  /\ (forall this : Template.IntValue.t Template.IntValue.DecrementIntValueOperationStrategy,
      Nat.iter n Template.IntValue.Operation this
      = Template.IntValue.SetValue
          (Nat.iter n (Documented.on_int Decrement) (Template.IntValue.GetValue this)) this)
  /\ (forall this : Template.FloatValue.t Template.FloatValue.IncrementFloatValueOperationStrategy,
      Nat.iter n Template.FloatValue.Operation this
      = Template.FloatValue.SetValue
          (Nat.iter n (Documented.on_float Increment) (Template.FloatValue.GetValue this))
          this)
  /\ (forall this : Template.FloatValue.t Template.FloatValue.DecrementFloatValueOperationStrategy,
      Nat.iter n Template.FloatValue.Operation this
      = Template.FloatValue.SetValue
          (Nat.iter n (Documented.on_float Decrement) (Template.FloatValue.GetValue this))
          this).
Proof. repeat split; intros this; repeat_Template n this. Qed.

(** C10. [Operation()] changes the scalar only. In the two swappable
    designs the strategy stored after a completed call is the one stored
    before it (and a call that does not complete had none); in the
    template design the strategy member is untouched. Hence [n]
    operations in a row, with no swap in between, apply the behaviour
    assigned at the start [n] times and leave it assigned. *)
Theorem Operation_keeps_strategy :
  (* one call, swappable designs *)
  ((forall this,
       match ReferenceSemantics.IntValue.Operation this with
       | Done this' => ReferenceSemantics.IntValue.m_OperationStrategy this'
                       = ReferenceSemantics.IntValue.m_OperationStrategy this
       | Fault _ => ReferenceSemantics.IntValue.m_OperationStrategy this = nullptr
       end)
   /\ (forall this,
       match ReferenceSemantics.FloatValue.Operation this with
       | Done this' => ReferenceSemantics.FloatValue.m_OperationStrategy this'
                       = ReferenceSemantics.FloatValue.m_OperationStrategy this
       | Fault _ => ReferenceSemantics.FloatValue.m_OperationStrategy this = nullptr
       end)
   /\ (forall this,
       match ValueSemantics.IntValue.Operation this with
       | Done this' => ValueSemantics.IntValue.m_OperationStrategy this'
                       = ValueSemantics.IntValue.m_OperationStrategy this
       | Fault _ => ValueSemantics.IntValue.m_OperationStrategy this = None
       end)
   /\ (forall this,
       match ValueSemantics.FloatValue.Operation this with
       | Done this' => ValueSemantics.FloatValue.m_OperationStrategy this'
                       = ValueSemantics.FloatValue.m_OperationStrategy this
       | Fault _ => ValueSemantics.FloatValue.m_OperationStrategy this = None
       end))
  (* one call, template design *)
  /\ ((forall this : Template.IntValue.t Template.IntValue.IncrementIntValueOperationStrategy,
        Template.IntValue.m_OperationStrategy (Template.IntValue.Operation this)
        = Template.IntValue.m_OperationStrategy this)
      /\ (forall this : Template.IntValue.t Template.IntValue.DecrementIntValueOperationStrategy,
        Template.IntValue.m_OperationStrategy (Template.IntValue.Operation this)
        = Template.IntValue.m_OperationStrategy this)
      /\ (forall this : Template.FloatValue.t Template.FloatValue.IncrementFloatValueOperationStrategy,
        Template.FloatValue.m_OperationStrategy (Template.FloatValue.Operation this)
        = Template.FloatValue.m_OperationStrategy this)
      /\ (forall this : Template.FloatValue.t Template.FloatValue.DecrementFloatValueOperationStrategy,
        Template.FloatValue.m_OperationStrategy (Template.FloatValue.Operation this)
        = Template.FloatValue.m_OperationStrategy this))
  (* [n] calls in a row, swappable designs *)
  /\ ((forall n x v,
        RefInt.run (repeat CallOperation n)
          (ReferenceSemantics.IntValue.new v (RefInt.strategy x))
        = Done (ReferenceSemantics.IntValue.new (Nat.iter n (Documented.on_int x) v)
                  (RefInt.strategy x)))
      /\ (forall n x v,
        RefFloat.run (repeat CallOperation n)
          (ReferenceSemantics.FloatValue.new v (RefFloat.strategy x))
        = Done (ReferenceSemantics.FloatValue.new (Nat.iter n (Documented.on_float x) v)
                  (RefFloat.strategy x)))
      /\ (forall n x v,
        ValInt.run (repeat CallOperation n)
          (ValueSemantics.IntValue.new v (ValInt.strategy x))
        = Done (ValueSemantics.IntValue.new (Nat.iter n (Documented.on_int x) v)
                  (ValInt.strategy x)))
      /\ (forall n x v,
        ValFloat.run (repeat CallOperation n)
          (ValueSemantics.FloatValue.new v (ValFloat.strategy x))
        = Done (ValueSemantics.FloatValue.new (Nat.iter n (Documented.on_float x) v)
                  (ValFloat.strategy x))))
  (* [n] calls in a row, template design *)
  /\ (forall n,
      (forall this : Template.IntValue.t Template.IntValue.IncrementIntValueOperationStrategy,
          Nat.iter n Template.IntValue.Operation this
          = Template.IntValue.SetValue
              (Nat.iter n (Documented.on_int Increment) (Template.IntValue.GetValue this))
              this)
      /\ (forall this : Template.IntValue.t Template.IntValue.DecrementIntValueOperationStrategy,
          Nat.iter n Template.IntValue.Operation this
          = Template.IntValue.SetValue
              (Nat.iter n (Documented.on_int Decrement) (Template.IntValue.GetValue this))
              this)
      /\ (forall this : Template.FloatValue.t Template.FloatValue.IncrementFloatValueOperationStrategy,
          Nat.iter n Template.FloatValue.Operation this
          = Template.FloatValue.SetValue
              (Nat.iter n (Documented.on_float Increment) (Template.FloatValue.GetValue this))
              this)
      /\ (forall this : Template.FloatValue.t Template.FloatValue.DecrementFloatValueOperationStrategy,
          Nat.iter n Template.FloatValue.Operation this
          = Template.FloatValue.SetValue
              (Nat.iter n (Documented.on_float Decrement) (Template.FloatValue.GetValue this))
              this)).
Proof.
  split; [|split; [|split]].
  - repeat split; intros [[[]|] v]; reflexivity.
  - repeat split; intros [s v]; reflexivity.
  - repeat split; intros n x v.
    + apply RefInt_repeat_Operation.
    + apply RefFloat_repeat_Operation.
    + apply ValInt_repeat_Operation.
    + apply ValFloat_repeat_Operation.
  - exact Template_repeat_Operation.
Qed.

(* ===================================================================== *)
(** ** The factory *)
(* ===================================================================== *)

Ltac operations_in_a_row n x v :=
  let IH := fresh "IH" in
  revert v; induction n as [|n IH]; intros v;
  [ reflexivity
  | cbn [operations]; rewrite Nat.iter_succ, <- Nat.iter_swap, <- IH;
    destruct x; reflexivity ].

Lemma ReferenceSemantics_int_operations n x v :
  operations ReferenceSemantics.Operation n
    (ReferenceSemantics.IsIntValue
       (ReferenceSemantics.IntValue.new v (RefInt.strategy x)))
  = Done (ReferenceSemantics.IsIntValue
            (ReferenceSemantics.IntValue.new (Nat.iter n (Documented.on_int x) v)
               (RefInt.strategy x))).
Proof. operations_in_a_row n x v. Qed.

Lemma ReferenceSemantics_float_operations n x v :
  operations ReferenceSemantics.Operation n
    (ReferenceSemantics.IsFloatValue
       (ReferenceSemantics.FloatValue.new v (RefFloat.strategy x)))
  = Done (ReferenceSemantics.IsFloatValue
            (ReferenceSemantics.FloatValue.new (Nat.iter n (Documented.on_float x) v)
               (RefFloat.strategy x))).
Proof. operations_in_a_row n x v. Qed.

Lemma ValueSemantics_int_operations n x v :
  operations ValueSemantics.Operation n
    (ValueSemantics.IsIntValue (ValueSemantics.IntValue.new v (ValInt.strategy x)))
  = Done (ValueSemantics.IsIntValue
            (ValueSemantics.IntValue.new (Nat.iter n (Documented.on_int x) v)
               (ValInt.strategy x))).
Proof. operations_in_a_row n x v. Qed.

Lemma ValueSemantics_float_operations n x v :
  operations ValueSemantics.Operation n
    (ValueSemantics.IsFloatValue
       (ValueSemantics.FloatValue.new v (ValFloat.strategy x)))
  = Done (ValueSemantics.IsFloatValue
            (ValueSemantics.FloatValue.new (Nat.iter n (Documented.on_float x) v)
               (ValFloat.strategy x))).
Proof. operations_in_a_row n x v. Qed.

Lemma Template_operations n :
  (forall v, Nat.iter n Template.Operation (Template.IsIncrementIntValue v)
             = Template.IsIncrementIntValue (Nat.iter n Template.IntValue.Operation v))
  /\ (forall v, Nat.iter n Template.Operation (Template.IsDecrementIntValue v)
                = Template.IsDecrementIntValue (Nat.iter n Template.IntValue.Operation v))
  /\ (forall v, Nat.iter n Template.Operation (Template.IsIncrementFloatValue v)
                = Template.IsIncrementFloatValue
                    (Nat.iter n Template.FloatValue.Operation v))
  /\ (forall v, Nat.iter n Template.Operation (Template.IsDecrementFloatValue v)
                = Template.IsDecrementFloatValue
                    (Nat.iter n Template.FloatValue.Operation v)).
Proof.
  repeat split; intros v; (induction n as [|n IH]; [reflexivity|]);
    rewrite !Nat.iter_succ, IH; reflexivity.
Qed.

(** The containers the factories are documented to build do what the
    draws say: [n] operations complete and leave the expected scalar. *)
Lemma documented_values_behave (isInt isIncrement : bool) (n : nat) :
  (exists value',
      operations ReferenceSemantics.Operation n
        (Documented.ReferenceSemantics_Value isInt isIncrement) = Done value'
      /\ Benchmark.ReferenceSemantics_scalar value'
         = Factory.expected isInt isIncrement n)
  /\ (exists value',
      operations ValueSemantics.Operation n
        (Documented.ValueSemantics_Value isInt isIncrement) = Done value'
      /\ Benchmark.ValueSemantics_scalar value'
         = Factory.expected isInt isIncrement n)
  /\ Benchmark.Template_scalar
       (Nat.iter n Template.Operation (Documented.Template_Value isInt isIncrement))
     = Factory.expected isInt isIncrement n.
Proof.
  destruct (Template_operations n) as (Tii & Tdi & Tif & Tdf).
  destruct (Template_repeat_Operation n) as (Rii & Rdi & Rif & Rdf).
  unfold Factory.expected, Documented.ReferenceSemantics_Value,
    Documented.ValueSemantics_Value, Documented.Template_Value.
  split; [|split].
  - destruct isInt.
    + rewrite ReferenceSemantics_int_operations. eexists. split; reflexivity.
    + rewrite ReferenceSemantics_float_operations. eexists. split; reflexivity.
  - destruct isInt.
    + rewrite ValueSemantics_int_operations. eexists. split; reflexivity.
    + rewrite ValueSemantics_float_operations. eexists. split; reflexivity.
  - destruct isInt, isIncrement.
    + rewrite Tii, Rii. reflexivity.
    + rewrite Tdi, Rdi. reflexivity.
    + rewrite Tif, Rif. reflexivity.
    + rewrite Tdf, Rdf. reflexivity.
Qed.

(** C5. In each of the three designs [CreateRandomValue] makes exactly
    two draws: the first chooses the int or the float container, the
    second the increment or the decrement behaviour. It returns a pointer
    to the container the documentation describes for these two draws,
    built with scalar 0 (or 0.0f), and leaves the source in the state
    after the second draw. The pointer is never null. The containers of
    the four pairs of draws are pairwise different, so a pair of draws
    yields one of exactly four outcomes. The object returned has the
    drawn type and the drawn behaviour: it holds 0 (or 0.0f), any number
    [n] of operations on it complete, and it then holds [n] steps of the
    drawn behaviour from zero, that is 1, -1, 1.0f or -1.0f after the
    first. *)
Theorem CreateRandomValue_builds_documented (G : Type) (source : Source G) (g : G) :
  (ReferenceSemantics.CreateRandomValue g
   = (let '(isInt, isIncrement, g') := Documented.two_draws g in
      (make_unique (Documented.ReferenceSemantics_Value isInt isIncrement), g'))
   /\ ValueSemantics.CreateRandomValue g
      = (let '(isInt, isIncrement, g') := Documented.two_draws g in
         (make_unique (Documented.ValueSemantics_Value isInt isIncrement), g'))
   /\ Template.CreateRandomValue g
      = (let '(isInt, isIncrement, g') := Documented.two_draws g in
         (make_unique (Documented.Template_Value isInt isIncrement), g')))
  /\ (fst (ReferenceSemantics.CreateRandomValue g) <> nullptr
      /\ fst (ValueSemantics.CreateRandomValue g) <> nullptr
      /\ fst (Template.CreateRandomValue g) <> nullptr)
  /\ (NoDup (map (fun '(isInt, isIncrement) =>
                    Documented.ReferenceSemantics_Value isInt isIncrement)
               [(true, true); (true, false); (false, true); (false, false)])
      /\ NoDup (map (fun '(isInt, isIncrement) =>
                       Documented.ValueSemantics_Value isInt isIncrement)
                  [(true, true); (true, false); (false, true); (false, false)])
      /\ NoDup (map (fun '(isInt, isIncrement) =>
                       Documented.Template_Value isInt isIncrement)
                  [(true, true); (true, false); (false, true); (false, false)]))
  /\ (forall n : nat,
      let '(isInt, isIncrement, _) := Documented.two_draws g in
      (exists value value',
          fst (ReferenceSemantics.CreateRandomValue g) = Some value
          /\ operations ReferenceSemantics.Operation n value = Done value'
          /\ Benchmark.ReferenceSemantics_scalar value'
             = Factory.expected isInt isIncrement n)
      /\ (exists value value',
          fst (ValueSemantics.CreateRandomValue g) = Some value
          /\ operations ValueSemantics.Operation n value = Done value'
          /\ Benchmark.ValueSemantics_scalar value'
             = Factory.expected isInt isIncrement n)
      /\ (exists value,
          fst (Template.CreateRandomValue g) = Some value
          /\ Benchmark.Template_scalar (Nat.iter n Template.Operation value)
             = Factory.expected isInt isIncrement n))
  /\ (forall isIncrement,
        Factory.expected true isIncrement 0 = Benchmark.IntScalar 0
        /\ Factory.expected false isIncrement 0 = Benchmark.FloatScalar Float32.zero)
     /\ Factory.expected true true 1 = Benchmark.IntScalar 1
     /\ Factory.expected true false 1 = Benchmark.IntScalar (-1)
     /\ Factory.expected false true 1 = Benchmark.FloatScalar Float32.one
     /\ Factory.expected false false 1 = Benchmark.FloatScalar Float32.minus_one.
Proof.
  assert (E :
    ReferenceSemantics.CreateRandomValue g
    = (let '(isInt, isIncrement, g') := Documented.two_draws g in
       (make_unique (Documented.ReferenceSemantics_Value isInt isIncrement), g'))
    /\ ValueSemantics.CreateRandomValue g
       = (let '(isInt, isIncrement, g') := Documented.two_draws g in
          (make_unique (Documented.ValueSemantics_Value isInt isIncrement), g'))
    /\ Template.CreateRandomValue g
       = (let '(isInt, isIncrement, g') := Documented.two_draws g in
          (make_unique (Documented.Template_Value isInt isIncrement), g'))).
  { unfold ReferenceSemantics.CreateRandomValue, ValueSemantics.CreateRandomValue,
      Template.CreateRandomValue, Documented.two_draws.
    destruct (RandomBool g) as [isInt g1].
    destruct isInt; destruct (RandomBool g1) as [isIncrement g2];
      destruct isIncrement; repeat split. }
  split; [exact E|]. split; [|split; [|split]].
  - destruct E as (-> & -> & ->).
    destruct (Documented.two_draws g) as [[isInt isIncrement] g'].
    repeat split; discriminate.
  - repeat split; simpl;
      repeat (constructor; [simpl; intuition discriminate|]); constructor.
  - intros n. destruct E as (-> & -> & ->).
    destruct (Documented.two_draws g) as [[isInt isIncrement] g'].
    destruct (documented_values_behave isInt isIncrement n)
      as ((a' & Ha & Sa) & (b' & Hb & Sb) & Sc).
    split; [|split].
    + exists (Documented.ReferenceSemantics_Value isInt isIncrement), a'.
      split; [reflexivity|]. now split.
    + exists (Documented.ValueSemantics_Value isInt isIncrement), b'.
      split; [reflexivity|]. now split.
    + exists (Documented.Template_Value isInt isIncrement).
      split; [reflexivity|exact Sc].
  - repeat split.
Qed.

(** Replayed draws: each of the four pairs is turned into its own
    container, with the second draw read after the first. *)
Lemma CreateRandomValue_on_replay (first second : bool) (later : list bool) :
  ReferenceSemantics.CreateRandomValue (first :: second :: later)
  = (make_unique (Documented.ReferenceSemantics_Value first second), later)
  /\ ValueSemantics.CreateRandomValue (first :: second :: later)
     = (make_unique (Documented.ValueSemantics_Value first second), later)
  /\ Template.CreateRandomValue (first :: second :: later)
     = (make_unique (Documented.Template_Value first second), later).
Proof. destruct first, second; repeat split. Qed.

(* ===================================================================== *)
(** ** Increment then decrement *)
(* ===================================================================== *)

(** C3, as stated, fails for the float container: at 16777216.0f (2^24)
    the increment rounds back to 16777216.0f and the decrement then gives
    16777215.0f, which is not the value the container started with. *)
Lemma float_round_trip_fails :
  let v := Float32.of_Z 16777216 in
  (RefFloat.run (round_trip_calls (RefFloat.strategy Decrement))
     (ReferenceSemantics.FloatValue.new v (RefFloat.strategy Increment))
   = Done (ReferenceSemantics.FloatValue.new (Float32.of_Z 16777215)
             (RefFloat.strategy Decrement))
   /\ ValFloat.run (round_trip_calls (ValFloat.strategy Decrement))
        (ValueSemantics.FloatValue.new v (ValFloat.strategy Increment))
      = Done (ValueSemantics.FloatValue.new (Float32.of_Z 16777215)
                (ValFloat.strategy Decrement)))
  /\ Documented.on_float Decrement (Documented.on_float Increment v) <> v
  /\ Float32.eqb (Documented.on_float Decrement (Documented.on_float Increment v)) v
     = false.
Proof. repeat split. discriminate. Qed.

(** Other floats that do not come back: a value below the spacing of the
    floats near 1.0f is lost in the sum, and NaN never compares equal. *)
Lemma other_floats_do_not_come_back :
  let tiny := S754_finite false 8388608 (-53) in          (* 2^-30 *)
  Documented.on_float Decrement (Documented.on_float Increment tiny) = Float32.zero
  /\ Float32.eqb (Documented.on_float Decrement (Documented.on_float Increment S754_nan))
       S754_nan = false.
Proof. split; reflexivity. Qed.

(** C3, amended. Increment followed by decrement brings the container
    back to its scalar: for every int32 scalar (the sums wrap around at
    the ends of the range), and for every float scalar that is the image
    of an integer [n] with [-2^24 <= n < 2^24]. The strategy left
    assigned is the decrement one. *)
Theorem increment_then_decrement (v n : Z) :
  Int32.in_range v ->
  - Float32.exact_bound <= n < Float32.exact_bound ->
  RefInt.run (round_trip_calls (RefInt.strategy Decrement))
    (ReferenceSemantics.IntValue.new v (RefInt.strategy Increment))
  = Done (ReferenceSemantics.IntValue.new v (RefInt.strategy Decrement))
  /\ ValInt.run (round_trip_calls (ValInt.strategy Decrement))
       (ValueSemantics.IntValue.new v (ValInt.strategy Increment))
     = Done (ValueSemantics.IntValue.new v (ValInt.strategy Decrement))
  /\ RefFloat.run (round_trip_calls (RefFloat.strategy Decrement))
       (ReferenceSemantics.FloatValue.new (Float32.of_Z n) (RefFloat.strategy Increment))
     = Done (ReferenceSemantics.FloatValue.new (Float32.of_Z n)
               (RefFloat.strategy Decrement))
  /\ ValFloat.run (round_trip_calls (ValFloat.strategy Decrement))
       (ValueSemantics.FloatValue.new (Float32.of_Z n) (ValFloat.strategy Increment))
     = Done (ValueSemantics.FloatValue.new (Float32.of_Z n)
               (ValFloat.strategy Decrement)).
Proof.
  intros Hv Hn. unfold Float32.exact_bound in Hn.
  assert (Ei : Int32.sub (Int32.add v 1) 1 = v) by now apply Int32Facts.sub_add_1.
  assert (Ef : Float32.sub (Float32.add (Float32.of_Z n) Float32.one) Float32.one
               = Float32.of_Z n).
  { rewrite Float32Facts.add_of_Z_one by lia.
    rewrite Float32Facts.sub_of_Z_one by lia. f_equal. lia. }
  repeat split;
    cbn -[Int32.add Int32.sub Float32.add Float32.sub Float32.of_Z Float32.one];
    rewrite ?Ei, ?Ef; reflexivity.
Qed.

Lemma round_trip_at_the_ends :
  Int32.in_range Int32.max_signed
  /\ - Float32.exact_bound <= 16777215 < Float32.exact_bound
  /\ RefInt.run (round_trip_calls (RefInt.strategy Decrement))
       (ReferenceSemantics.IntValue.new Int32.max_signed (RefInt.strategy Increment))
     = Done (ReferenceSemantics.IntValue.new Int32.max_signed (RefInt.strategy Decrement))
  /\ RefFloat.run (round_trip_calls (RefFloat.strategy Decrement))
       (ReferenceSemantics.FloatValue.new (Float32.of_Z 16777215)
          (RefFloat.strategy Increment))
     = Done (ReferenceSemantics.FloatValue.new (Float32.of_Z 16777215)
               (RefFloat.strategy Decrement)).
Proof.
  assert (Hv : Int32.in_range Int32.max_signed)
    by (unfold Int32.in_range, Int32.min_signed, Int32.max_signed; lia).
  assert (Hn : - Float32.exact_bound <= 16777215 < Float32.exact_bound)
    by (unfold Float32.exact_bound; lia).
  split; [exact Hv|]. split; [exact Hn|].
  pose proof (increment_then_decrement Int32.max_signed 16777215 Hv Hn) as H.
  split; [exact (proj1 H)|exact (proj1 (proj2 (proj2 H)))].
Defined.

(* ===================================================================== *)
(** ** The float container against the int container *)
(* ===================================================================== *)

(** C9, as stated, fails: built with 16777216 (2^24) and the increment
    strategy, the int container reads 16777217 and 16777218 after two
    operations while the float container stays at 16777216.0f; the image
    of 16777218 is another float. *)
Lemma float_leaves_int_image :
  let calls := map (Call_map RefInt.strategy) [CallOperation; CallOperation] in
  let calls' := map (Call_map RefFloat.strategy) [CallOperation; CallOperation] in
  let ints :=
    RefInt.trace calls (ReferenceSemantics.IntValue.new 16777216 (RefInt.strategy Increment)) in
  let floats :=
    RefFloat.trace calls'
      (ReferenceSemantics.FloatValue.new (Float32.of_Z 16777216)
         (RefFloat.strategy Increment)) in
  ints = [16777217; 16777218]
  /\ floats = [Float32.of_Z 16777216; Float32.of_Z 16777216]
  /\ floats <> map Float32.of_Z ints
  /\ Float32.eqb (Float32.of_Z 16777216) (Float32.of_Z 16777218) = false.
Proof. repeat split. discriminate. Qed.

Lemma scalars_Operation a b :
  Related.scalars a b ->
  forall a',
    ReferenceSemantics.IntValue.Operation a = Done a' ->
    Float32.exact_intb (ReferenceSemantics.IntValue.GetValue a') = true ->
    exists b',
      ReferenceSemantics.FloatValue.Operation b = Done b'
      /\ Related.scalars a' b'.
Proof.
  destruct a as [sa va], b as [sb vb]. intros (Hva & Hvb & x & Ha & Hb) a' Hop Ha'.
  simpl in Hva, Hvb, Ha, Hb. subst sa sb vb.
  pose proof (Float32Facts.exact_int_in_range va Hva) as Hr.
  unfold Float32.exact_int, Float32.exact_bound in Hva.
  destruct x; injection Hop as <-;
    cbn -[Int32.add Int32.sub Float32.add Float32.sub Float32.of_Z Float32.one
          Float32.exact_intb] in Ha';
    apply Float32Facts.exact_intb_spec in Ha'.
  - rewrite Int32Facts.add_1_exact in Ha'
      by (try exact Hr; unfold Int32.max_signed; lia).
    unfold Float32.exact_int, Float32.exact_bound in Ha'.
    eexists; split; [reflexivity|].
    split; [|split; [|now exists Increment]];
      cbn -[Int32.add Float32.add Float32.of_Z Float32.one];
      rewrite Int32Facts.add_1_exact by (try exact Hr; unfold Int32.max_signed; lia).
    + unfold Float32.exact_int, Float32.exact_bound. lia.
    + apply Float32Facts.add_of_Z_one; lia.
  - rewrite Int32Facts.sub_1_exact in Ha'
      by (try exact Hr; unfold Int32.min_signed; lia).
    unfold Float32.exact_int, Float32.exact_bound in Ha'.
    eexists; split; [reflexivity|].
    split; [|split; [|now exists Decrement]];
      cbn -[Int32.sub Float32.sub Float32.of_Z Float32.one];
      rewrite Int32Facts.sub_1_exact by (try exact Hr; unfold Int32.min_signed; lia).
    + unfold Float32.exact_int, Float32.exact_bound. lia.
    + apply Float32Facts.sub_of_Z_one; lia.
Qed.

Lemma scalars_trace calls :
  forall a b,
    Related.scalars a b ->
    forallb Float32.exact_intb (RefInt.trace (map (Call_map RefInt.strategy) calls) a)
    = true ->
    RefFloat.trace (map (Call_map RefFloat.strategy) calls) b
    = map Float32.of_Z (RefInt.trace (map (Call_map RefInt.strategy) calls) a).
Proof.
  induction calls as [|call rest IH]; intros a b Hab Hexact; [reflexivity|].
  destruct call as [|x].
  - (* Operation *)
    destruct Hab as (Hva & Hvb & y & Ha & Hb).
    assert (Hop : exists a', ReferenceSemantics.IntValue.Operation a = Done a').
    { unfold ReferenceSemantics.IntValue.Operation. rewrite Ha.
      destruct y; eexists; reflexivity. }
    destruct Hop as [a' Hop].
    cbn [map Call_map] in *. unfold RefInt.trace, RefFloat.trace in *.
    cbn [trace step] in *. rewrite Hop in *. cbn [forallb] in Hexact.
    apply andb_true_iff in Hexact as [Hhead Hrest].
    destruct (scalars_Operation a b
                (conj Hva (conj Hvb (ex_intro _ y (conj Ha Hb)))) a' Hop Hhead)
      as (b' & -> & Hab').
    cbn [map]. rewrite (IH a' b' Hab' Hrest). f_equal.
    exact (proj1 (proj2 Hab')).
  - (* SetOperationStrategy *)
    cbn [map Call_map] in *. unfold RefInt.trace, RefFloat.trace in *.
    cbn [trace step] in *. cbn [forallb] in Hexact.
    apply andb_true_iff in Hexact as [Hhead Hrest].
    assert (Hab' : Related.scalars
                     (ReferenceSemantics.IntValue.SetOperationStrategy
                        (RefInt.strategy x) a)
                     (ReferenceSemantics.FloatValue.SetOperationStrategy
                        (RefFloat.strategy x) b)).
    { destruct Hab as (Hva & Hvb & _). split; [exact Hva|]. split; [exact Hvb|].
      now exists x. }
    cbn [map]. rewrite (IH _ _ Hab' Hrest). f_equal.
    exact (proj1 (proj2 Hab')).
Qed.

(** C9, amended. Built with an integer [n] and its float image, with the
    same behaviour, and driven by the same calls, the float container
    reads after each call the float image of what the int container
    reads, as long as the int container starts and stays between [-2^24]
    and [2^24], where every unit step of a float is exact. This holds in
    the reference-semantics and in the value-semantics design. *)
Theorem float_follows_int (n : Z) (x : Behaviour) (calls : list (Call Behaviour)) :
  Float32.exact_intb n = true ->
  forallb Float32.exact_intb
    (RefInt.trace (map (Call_map RefInt.strategy) calls)
       (ReferenceSemantics.IntValue.new n (RefInt.strategy x))) = true ->
  RefFloat.trace (map (Call_map RefFloat.strategy) calls)
    (ReferenceSemantics.FloatValue.new (Float32.of_Z n) (RefFloat.strategy x))
  = map Float32.of_Z
      (RefInt.trace (map (Call_map RefInt.strategy) calls)
         (ReferenceSemantics.IntValue.new n (RefInt.strategy x)))
  /\ ValFloat.trace (map (Call_map ValFloat.strategy) calls)
       (ValueSemantics.FloatValue.new (Float32.of_Z n) (ValFloat.strategy x))
     = map Float32.of_Z
         (ValInt.trace (map (Call_map ValInt.strategy) calls)
            (ValueSemantics.IntValue.new n (ValInt.strategy x))).
Proof.
  intros Hn Hcalls.
  assert (Href :
    RefFloat.trace (map (Call_map RefFloat.strategy) calls)
      (ReferenceSemantics.FloatValue.new (Float32.of_Z n) (RefFloat.strategy x))
    = map Float32.of_Z
        (RefInt.trace (map (Call_map RefInt.strategy) calls)
           (ReferenceSemantics.IntValue.new n (RefInt.strategy x)))).
  { apply scalars_trace; [|exact Hcalls].
    split; [now apply Float32Facts.exact_intb_spec|].
    split; [reflexivity|]. now exists x. }
  split; [exact Href|].
  rewrite <- (proj1 (designs_float_trace calls _ _
                       (designs_float_new (Float32.of_Z n) x))).
  rewrite <- (proj1 (designs_int_trace calls _ _ (designs_int_new n x))).
  exact Href.
Qed.

Lemma exact_up_to_the_bound :
  let calls := [CallOperation; CallSetOperationStrategy Decrement; CallOperation] in
  Float32.exact_intb 16777215 = true
  /\ RefInt.trace (map (Call_map RefInt.strategy) calls)
       (ReferenceSemantics.IntValue.new 16777215 (RefInt.strategy Increment))
     = [16777216; 16777216; 16777215]
  /\ RefFloat.trace (map (Call_map RefFloat.strategy) calls)
       (ReferenceSemantics.FloatValue.new (Float32.of_Z 16777215)
          (RefFloat.strategy Increment))
     = map Float32.of_Z [16777216; 16777216; 16777215].
Proof.
  split; [reflexivity|]. split; [reflexivity|].
  apply (float_follows_int 16777215 Increment
           [CallOperation; CallSetOperationStrategy Decrement; CallOperation]);
    reflexivity.
Defined.

(* ===================================================================== *)
(** ** The int containers count modulo 2^32 *)
(* ===================================================================== *)

Lemma RefInt_counts calls :
  forall v x,
    Int32.in_range v ->
    RefInt.run (map (Call_map RefInt.strategy) calls)
      (ReferenceSemantics.IntValue.new v (RefInt.strategy x))
    = Done (ReferenceSemantics.IntValue.new
              (Int32.wrap (v + Counter.net x calls))
              (RefInt.strategy (Counter.last x calls))).
Proof.
  induction calls as [|[|y] rest IH]; intros v x Hv.
  - simpl. rewrite Z.add_0_r, Int32Facts.wrap_small by exact Hv. reflexivity.
  - cbn [Counter.net Counter.last].
    replace (v + (Counter.unit_step x + Counter.net x rest))
      with (v + Counter.unit_step x + Counter.net x rest) by lia.
    rewrite <- Int32Facts.wrap_add_l.
    rewrite <- (IH (Int32.wrap (v + Counter.unit_step x)) x)
      by apply Int32Facts.wrap_in_range.
    destruct x; reflexivity.
  - cbn [Counter.net Counter.last]. rewrite <- (IH v y Hv). reflexivity.
Qed.

Lemma ValInt_counts calls :
  forall v x,
    Int32.in_range v ->
    ValInt.run (map (Call_map ValInt.strategy) calls)
      (ValueSemantics.IntValue.new v (ValInt.strategy x))
    = Done (ValueSemantics.IntValue.new
              (Int32.wrap (v + Counter.net x calls))
              (ValInt.strategy (Counter.last x calls))).
Proof.
  induction calls as [|[|y] rest IH]; intros v x Hv.
  - simpl. rewrite Z.add_0_r, Int32Facts.wrap_small by exact Hv. reflexivity.
  - cbn [Counter.net Counter.last].
    replace (v + (Counter.unit_step x + Counter.net x rest))
      with (v + Counter.unit_step x + Counter.net x rest) by lia.
    rewrite <- Int32Facts.wrap_add_l.
    rewrite <- (IH (Int32.wrap (v + Counter.unit_step x)) x)
      by apply Int32Facts.wrap_in_range.
    destruct x; reflexivity.
  - cbn [Counter.net Counter.last]. rewrite <- (IH v y Hv). reflexivity.
Qed.

(** X1. An int container of the two swappable designs is a counter
    modulo 2^32: after any sequence of operations and swaps it holds the
    start value plus the number of operations made under the increment
    strategy minus the number made under the decrement strategy, wrapped
    into the int32 range, and its strategy is the last one handed over. *)
Theorem int_container_counts (v : Z) (x : Behaviour) (calls : list (Call Behaviour)) :
  Int32.in_range v ->
  RefInt.run (map (Call_map RefInt.strategy) calls)
    (ReferenceSemantics.IntValue.new v (RefInt.strategy x))
  = Done (ReferenceSemantics.IntValue.new
            (Int32.wrap (v + Counter.net x calls))
            (RefInt.strategy (Counter.last x calls)))
  /\ ValInt.run (map (Call_map ValInt.strategy) calls)
       (ValueSemantics.IntValue.new v (ValInt.strategy x))
     = Done (ValueSemantics.IntValue.new
               (Int32.wrap (v + Counter.net x calls))
               (ValInt.strategy (Counter.last x calls))).
Proof.
  intros Hv. split; [now apply RefInt_counts|now apply ValInt_counts].
Qed.

Lemma counter_wraps_and_returns :
  let calls := [CallOperation; CallOperation; CallSetOperationStrategy Decrement;
                CallOperation] in
  Int32.in_range 2147483646
  /\ Counter.net Increment calls = 1
  /\ RefInt.run (map (Call_map RefInt.strategy) calls)
       (ReferenceSemantics.IntValue.new 2147483646 (RefInt.strategy Increment))
     = Done (ReferenceSemantics.IntValue.new 2147483647 (RefInt.strategy Decrement)).
Proof.
  assert (Hv : Int32.in_range 2147483646)
    by (unfold Int32.in_range, Int32.min_signed, Int32.max_signed; lia).
  split; [exact Hv|]. split; [reflexivity|].
  exact (proj1 (int_container_counts 2147483646 Increment
                  [CallOperation; CallOperation; CallSetOperationStrategy Decrement;
                   CallOperation] Hv)).
Defined.

Lemma iter_on_int n x v :
  Int32.in_range v ->
  Nat.iter n (Documented.on_int x) v
  = Int32.wrap (v + Z.of_nat n * Counter.unit_step x).
Proof.
  intros Hv. induction n as [|n IH].
  - simpl. rewrite Z.add_0_r. symmetry. now apply Int32Facts.wrap_small.
  - rewrite Nat.iter_succ, IH, Nat2Z.inj_succ.
    replace (v + Z.succ (Z.of_nat n) * Counter.unit_step x)
      with (v + Z.of_nat n * Counter.unit_step x + Counter.unit_step x) by lia.
    rewrite <- (Int32Facts.wrap_add_l (v + Z.of_nat n * Counter.unit_step x)).
    destruct x; reflexivity.
Qed.

(** X2. A template int container counts in the direction its type fixes:
    after [n] operations an [IntValue<IncrementIntValueOperationStrategy>]
    holds its start value plus [n], an
    [IntValue<DecrementIntValueOperationStrategy>] its start value minus
    [n], wrapped into the int32 range. *)
Theorem template_int_container_counts (v : Z) (n : nat) :
  Int32.in_range v ->
  Template.IntValue.GetValue
    (Nat.iter n Template.IntValue.Operation
       (Template.IntValue.new v
        : Template.IntValue.t Template.IntValue.IncrementIntValueOperationStrategy))
  = Int32.wrap (v + Z.of_nat n)
  /\ Template.IntValue.GetValue
       (Nat.iter n Template.IntValue.Operation
          (Template.IntValue.new v
           : Template.IntValue.t Template.IntValue.DecrementIntValueOperationStrategy))
     = Int32.wrap (v - Z.of_nat n).
Proof.
  intros Hv. destruct (Template_repeat_Operation n) as (Hi & Hd & _).
  rewrite Hi, Hd. cbn [Template.IntValue.GetValue Template.IntValue.SetValue
                         Template.IntValue.new Template.IntValue.m_Value].
  rewrite !iter_on_int by exact Hv. split; f_equal; simpl Counter.unit_step; lia.
Qed.

Lemma template_counts_down_to_minus_three :
  Int32.in_range 0
  /\ Template.IntValue.GetValue
       (Nat.iter 3 Template.IntValue.Operation
          (Template.IntValue.new 0
           : Template.IntValue.t Template.IntValue.DecrementIntValueOperationStrategy))
     = -3.
Proof.
  assert (Hv : Int32.in_range 0)
    by (unfold Int32.in_range, Int32.min_signed, Int32.max_signed; lia).
  split; [exact Hv|].
  exact (proj2 (template_int_container_counts 0 3 Hv)).
Defined.

(* ===================================================================== *)
(** ** The float containers stop counting at 2^24 *)
(* ===================================================================== *)

Lemma iter_increment_float k n :
  Float32.exact_int k ->
  Nat.iter n (Documented.on_float Increment) (Float32.of_Z k)
  = Float32.of_Z (Z.min (k + Z.of_nat n) Float32.exact_bound).
Proof.
  unfold Float32.exact_int, Float32.exact_bound. intros Hk.
  induction n as [|n IH].
  - simpl. rewrite Z.add_0_r, Z.min_l by lia. reflexivity.
  - rewrite Nat.iter_succ, IH, Nat2Z.inj_succ. cbn [Documented.on_float].
    destruct (Z_lt_le_dec (k + Z.of_nat n) (2 ^ 24)) as [Hlt|Hge].
    + rewrite Z.min_l by lia. rewrite Float32Facts.add_of_Z_one by lia.
      rewrite Z.min_l by lia. f_equal. lia.
    + rewrite !Z.min_r by lia. reflexivity.
Qed.

Lemma iter_decrement_float k n :
  Float32.exact_int k ->
  Nat.iter n (Documented.on_float Decrement) (Float32.of_Z k)
  = Float32.of_Z (Z.max (k - Z.of_nat n) (- Float32.exact_bound)).
Proof.
  unfold Float32.exact_int, Float32.exact_bound. intros Hk.
  induction n as [|n IH].
  - simpl. rewrite Z.sub_0_r, Z.max_l by lia. reflexivity.
  - rewrite Nat.iter_succ, IH, Nat2Z.inj_succ. cbn [Documented.on_float].
    destruct (Z_lt_le_dec (- 2 ^ 24) (k - Z.of_nat n)) as [Hlt|Hge].
    + rewrite Z.max_l by lia. rewrite Float32Facts.sub_of_Z_one by lia.
      rewrite Z.max_l by lia. f_equal. lia.
    + rewrite !Z.max_r by lia. reflexivity.
Qed.

(** X3. A float container counts only up to 16777216.0f (2^24) and down
    to -16777216.0f: started at the image of an integer [k] between the
    two bounds, after [n] operations under the increment strategy it
    holds the image of [min (k + n) 2^24], and under the decrement
    strategy the image of [max (k - n) (-2^24)]; once a bound is reached
    further operations leave the value as it is. This holds in the three
    designs. *)
Theorem float_container_saturates (k : Z) (n : nat) :
  Float32.exact_intb k = true ->
  let up := Float32.of_Z (Z.min (k + Z.of_nat n) Float32.exact_bound) in
  let down := Float32.of_Z (Z.max (k - Z.of_nat n) (- Float32.exact_bound)) in
  (RefFloat.run (repeat CallOperation n)
     (ReferenceSemantics.FloatValue.new (Float32.of_Z k) (RefFloat.strategy Increment))
   = Done (ReferenceSemantics.FloatValue.new up (RefFloat.strategy Increment))
   /\ RefFloat.run (repeat CallOperation n)
        (ReferenceSemantics.FloatValue.new (Float32.of_Z k) (RefFloat.strategy Decrement))
      = Done (ReferenceSemantics.FloatValue.new down (RefFloat.strategy Decrement)))
  /\ (ValFloat.run (repeat CallOperation n)
        (ValueSemantics.FloatValue.new (Float32.of_Z k) (ValFloat.strategy Increment))
      = Done (ValueSemantics.FloatValue.new up (ValFloat.strategy Increment))
      /\ ValFloat.run (repeat CallOperation n)
           (ValueSemantics.FloatValue.new (Float32.of_Z k) (ValFloat.strategy Decrement))
         = Done (ValueSemantics.FloatValue.new down (ValFloat.strategy Decrement)))
  /\ (Template.FloatValue.GetValue
        (Nat.iter n Template.FloatValue.Operation
           (Template.FloatValue.new (Float32.of_Z k)
            : Template.FloatValue.t
                Template.FloatValue.IncrementFloatValueOperationStrategy))
      = up
      /\ Template.FloatValue.GetValue
           (Nat.iter n Template.FloatValue.Operation
              (Template.FloatValue.new (Float32.of_Z k)
               : Template.FloatValue.t
                   Template.FloatValue.DecrementFloatValueOperationStrategy))
         = down).
Proof.
  intros Hk up down. apply Float32Facts.exact_intb_spec in Hk.
  pose proof (iter_increment_float k n Hk) as Hup.
  pose proof (iter_decrement_float k n Hk) as Hdown.
  fold up in Hup. fold down in Hdown.
  destruct (Template_repeat_Operation n) as (_ & _ & Hi & Hd).
  repeat split.
  - rewrite RefFloat_repeat_Operation, Hup. reflexivity.
  - rewrite RefFloat_repeat_Operation, Hdown. reflexivity.
  - rewrite ValFloat_repeat_Operation, Hup. reflexivity.
  - rewrite ValFloat_repeat_Operation, Hdown. reflexivity.
  - rewrite Hi. exact Hup.
  - rewrite Hd. exact Hdown.
Qed.

Lemma three_steps_across_the_bound :
  Float32.exact_intb 16777214 = true
  /\ RefFloat.run (repeat CallOperation 3)
       (ReferenceSemantics.FloatValue.new (Float32.of_Z 16777214)
          (RefFloat.strategy Increment))
     = Done (ReferenceSemantics.FloatValue.new (Float32.of_Z 16777216)
               (RefFloat.strategy Increment)).
Proof.
  split; [reflexivity|].
  exact (proj1 (proj1 (float_container_saturates 16777214 3 eq_refl))).
Defined.

(* ===================================================================== *)
(** ** Floats that no operation changes *)
(* ===================================================================== *)

Lemma stuck_on_float v x :
  Counter.stuck v = true -> Documented.on_float x v = v.
Proof. destruct v as [s|s| |s m e], x; simpl; try discriminate; reflexivity. Qed.

Lemma RefFloat_stuck_trace calls :
  forall v x,
    Counter.stuck v = true ->
    RefFloat.trace (map (Call_map RefFloat.strategy) calls)
      (ReferenceSemantics.FloatValue.new v (RefFloat.strategy x))
    = repeat v (length calls).
Proof.
  induction calls as [|[|y] rest IH]; intros v x Hv; [reflexivity| |].
  - assert (E : RefFloat.trace (map (Call_map RefFloat.strategy) (CallOperation :: rest))
                 (ReferenceSemantics.FloatValue.new v (RefFloat.strategy x))
               = Documented.on_float x v
                 :: RefFloat.trace (map (Call_map RefFloat.strategy) rest)
                      (ReferenceSemantics.FloatValue.new (Documented.on_float x v) (RefFloat.strategy x)))
      by (destruct x; reflexivity).
    rewrite E, (stuck_on_float v x Hv), (IH v x Hv). reflexivity.
  - cbn [length repeat]. rewrite <- (IH v y Hv). reflexivity.
Qed.

Lemma ValFloat_stuck_trace calls :
  forall v x,
    Counter.stuck v = true ->
    ValFloat.trace (map (Call_map ValFloat.strategy) calls)
      (ValueSemantics.FloatValue.new v (ValFloat.strategy x))
    = repeat v (length calls).
Proof.
  induction calls as [|[|y] rest IH]; intros v x Hv; [reflexivity| |].
  - assert (E : ValFloat.trace (map (Call_map ValFloat.strategy) (CallOperation :: rest))
                 (ValueSemantics.FloatValue.new v (ValFloat.strategy x))
               = Documented.on_float x v
                 :: ValFloat.trace (map (Call_map ValFloat.strategy) rest)
                      (ValueSemantics.FloatValue.new (Documented.on_float x v) (ValFloat.strategy x)))
      by (destruct x; reflexivity).
    rewrite E, (stuck_on_float v x Hv), (IH v x Hv). reflexivity.
  - cbn [length repeat]. rewrite <- (IH v y Hv). reflexivity.
Qed.

Lemma iter_stuck n x v :
  Counter.stuck v = true -> Nat.iter n (Documented.on_float x) v = v.
Proof.
  intros Hv. induction n as [|n IH]; [reflexivity|].
  rewrite Nat.iter_succ, IH. now apply stuck_on_float.
Qed.

(** X4. A float container that holds NaN or an infinity never leaves it:
    in the swappable designs [GetValue()] returns that same value after
    every call of any sequence of operations and swaps, and in the
    template design after any number of operations. *)
Theorem stuck_float_stays (v : Float32.t) (x : Behaviour)
  (calls : list (Call Behaviour)) (n : nat) :
  Counter.stuck v = true ->
  RefFloat.trace (map (Call_map RefFloat.strategy) calls)
    (ReferenceSemantics.FloatValue.new v (RefFloat.strategy x))
  = repeat v (length calls)
  /\ ValFloat.trace (map (Call_map ValFloat.strategy) calls)
       (ValueSemantics.FloatValue.new v (ValFloat.strategy x))
     = repeat v (length calls)
  /\ Template.FloatValue.GetValue
       (Nat.iter n Template.FloatValue.Operation
          (Template.FloatValue.new v
           : Template.FloatValue.t
               Template.FloatValue.IncrementFloatValueOperationStrategy))
     = v
  /\ Template.FloatValue.GetValue
       (Nat.iter n Template.FloatValue.Operation
          (Template.FloatValue.new v
           : Template.FloatValue.t
               Template.FloatValue.DecrementFloatValueOperationStrategy))
     = v.
Proof.
  intros Hv. destruct (Template_repeat_Operation n) as (_ & _ & Hi & Hd).
  split; [now apply RefFloat_stuck_trace|].
  split; [now apply ValFloat_stuck_trace|].
  rewrite Hi, Hd. split; apply (iter_stuck n _ v Hv).
Qed.

Lemma infinity_stays_through_the_unit_test :
  Counter.stuck (S754_infinity false) = true
  /\ RefFloat.trace (map (Call_map RefFloat.strategy) (unit_test_calls Decrement))
       (ReferenceSemantics.FloatValue.new (S754_infinity false)
          (RefFloat.strategy Increment))
     = repeat (S754_infinity false) 5.
Proof.
  split; [reflexivity|].
  exact (proj1 (stuck_float_stays (S754_infinity false) Increment
                  (unit_test_calls Decrement) 0 eq_refl)).
Defined.

(* ===================================================================== *)
(** ** When an operation does not complete *)
(* ===================================================================== *)

Lemma RefInt_completes calls :
  forall v o,
    match RefInt.run (map (Call_map (handed RefInt.strategy)) calls)
            (ReferenceSemantics.IntValue.new v (handed RefInt.strategy o)) with
    | Done _ => Counter.completes (Counter.is_assigned o) calls = true
    | Fault f => Counter.completes (Counter.is_assigned o) calls = false
                 /\ f = NullPointerDereference
    end.
Proof.
  induction calls as [|[|o'] rest IH]; intros v o; [reflexivity| |].
  - destruct o as [x|]; [|split; reflexivity].
    specialize (IH (Documented.on_int x v) (Some x)).
    destruct x; exact IH.
  - specialize (IH v o'). destruct o'; exact IH.
Qed.

Lemma RefFloat_completes calls :
  forall v o,
    match RefFloat.run (map (Call_map (handed RefFloat.strategy)) calls)
            (ReferenceSemantics.FloatValue.new v (handed RefFloat.strategy o)) with
    | Done _ => Counter.completes (Counter.is_assigned o) calls = true
    | Fault f => Counter.completes (Counter.is_assigned o) calls = false
                 /\ f = NullPointerDereference
    end.
Proof.
  induction calls as [|[|o'] rest IH]; intros v o; [reflexivity| |].
  - destruct o as [x|]; [|split; reflexivity].
    specialize (IH (Documented.on_float x v) (Some x)).
    destruct x; exact IH.
  - specialize (IH v o'). destruct o'; exact IH.
Qed.

Lemma ValInt_completes calls :
  forall v o,
    match ValInt.run (map (Call_map (handed ValInt.strategy)) calls)
            (ValueSemantics.IntValue.new v (handed ValInt.strategy o)) with
    | Done _ => Counter.completes (Counter.is_assigned o) calls = true
    | Fault f => Counter.completes (Counter.is_assigned o) calls = false
                 /\ f = BadFunctionCall
    end.
Proof.
  induction calls as [|[|o'] rest IH]; intros v o; [reflexivity| |].
  - destruct o as [x|]; [|split; reflexivity].
    specialize (IH (Documented.on_int x v) (Some x)).
    destruct x; exact IH.
  - specialize (IH v o'). destruct o'; exact IH.
Qed.

Lemma ValFloat_completes calls :
  forall v o,
    match ValFloat.run (map (Call_map (handed ValFloat.strategy)) calls)
            (ValueSemantics.FloatValue.new v (handed ValFloat.strategy o)) with
    | Done _ => Counter.completes (Counter.is_assigned o) calls = true
    | Fault f => Counter.completes (Counter.is_assigned o) calls = false
                 /\ f = BadFunctionCall
    end.
Proof.
  induction calls as [|[|o'] rest IH]; intros v o; [reflexivity| |].
  - destruct o as [x|]; [|split; reflexivity].
    specialize (IH (Documented.on_float x v) (Some x)).
    destruct x; exact IH.
  - specialize (IH v o'). destruct o'; exact IH.
Qed.

(** X5. A sequence of calls on a swappable container completes exactly
    when every [Operation()] in it is made while a strategy is assigned,
    that is when the container was built with one, or handed one, since
    the last time it was built with or handed an empty one. Otherwise the
    run stops at the first such operation: by calling through a null
    pointer in the reference-semantics design, by invoking an empty
    [std::function] in the value-semantics design. The scalar plays no
    part. *)
Theorem run_completes_iff_strategy_assigned
  (v : Z) (f : Float32.t) (o : option Behaviour) (calls : list (Call (option Behaviour))) :
  match RefInt.run (map (Call_map (handed RefInt.strategy)) calls)
          (ReferenceSemantics.IntValue.new v (handed RefInt.strategy o)) with
  | Done _ => Counter.completes (Counter.is_assigned o) calls = true
  | Fault e => Counter.completes (Counter.is_assigned o) calls = false
               /\ e = NullPointerDereference
  end
  /\ match RefFloat.run (map (Call_map (handed RefFloat.strategy)) calls)
             (ReferenceSemantics.FloatValue.new f (handed RefFloat.strategy o)) with
     | Done _ => Counter.completes (Counter.is_assigned o) calls = true
     | Fault e => Counter.completes (Counter.is_assigned o) calls = false
                  /\ e = NullPointerDereference
     end
  /\ match ValInt.run (map (Call_map (handed ValInt.strategy)) calls)
             (ValueSemantics.IntValue.new v (handed ValInt.strategy o)) with
     | Done _ => Counter.completes (Counter.is_assigned o) calls = true
     | Fault e => Counter.completes (Counter.is_assigned o) calls = false
                  /\ e = BadFunctionCall
     end
  /\ match ValFloat.run (map (Call_map (handed ValFloat.strategy)) calls)
             (ValueSemantics.FloatValue.new f (handed ValFloat.strategy o)) with
     | Done _ => Counter.completes (Counter.is_assigned o) calls = true
     | Fault e => Counter.completes (Counter.is_assigned o) calls = false
                  /\ e = BadFunctionCall
     end.
Proof.
  split; [apply RefInt_completes|].
  split; [apply RefFloat_completes|].
  split; [apply ValInt_completes|apply ValFloat_completes].
Qed.

(* ===================================================================== *)
(** ** The benchmarks *)
(* ===================================================================== *)

Section BenchmarkFacts.
Context {G Value : Type} `{Source G}.
Variable CreateRandomValue : G -> unique_ptr Value * G.
Variable Operation : Value -> outcome Value.
Variable scalar_of : Value -> Benchmark.scalar.

(** What the factory builds for two draws, and that object after one
    operation. *)
Variable built : bool -> bool -> Value.
Variable after : bool -> bool -> Value.
Hypothesis CreateRandomValue_built :
  forall g, CreateRandomValue g
            = (let '(isInt, isIncrement, g') := Documented.two_draws g in
               (make_unique (built isInt isIncrement), g')).
Hypothesis Operation_built :
  forall isInt isIncrement,
    Operation (built isInt isIncrement) = Done (after isInt isIncrement).
Hypothesis scalar_after :
  forall isInt isIncrement,
    scalar_of (after isInt isIncrement) = Benchmark.operated (isInt, isIncrement).

Lemma drawn_pairs_length count :
  forall g, length (fst (Benchmark.drawn_pairs count g)) = count.
Proof.
  induction count as [|count IH]; intros g; [reflexivity|].
  cbn [Benchmark.drawn_pairs].
  destruct (Documented.two_draws g) as [[isInt isIncrement] g1].
  specialize (IH g1). destruct (Benchmark.drawn_pairs count g1) as [rest g2].
  simpl in *. now rewrite IH.
Qed.

Lemma fill_drawn count :
  forall values g,
    Benchmark.fill CreateRandomValue count values g
    = (values ++ map (fun '(isInt, isIncrement) => make_unique (built isInt isIncrement))
                   (fst (Benchmark.drawn_pairs count g)),
       snd (Benchmark.drawn_pairs count g)).
Proof.
  induction count as [|count IH]; intros values g.
  - simpl. now rewrite app_nil_r.
  - cbn [Benchmark.fill Benchmark.drawn_pairs]. rewrite CreateRandomValue_built.
    destruct (Documented.two_draws g) as [[isInt isIncrement] g1].
    rewrite IH. destruct (Benchmark.drawn_pairs count g1) as [rest g2].
    cbn [fst snd map]. now rewrite <- app_assoc.
Qed.

Lemma operate_built pairs :
  Benchmark.operate Operation
    (map (fun '(isInt, isIncrement) => make_unique (built isInt isIncrement)) pairs)
  = Done (map (fun '(isInt, isIncrement) => make_unique (after isInt isIncrement)) pairs).
Proof.
  induction pairs as [|[isInt isIncrement] rest IH]; [reflexivity|].
  cbn [map Benchmark.operate make_unique]. rewrite Operation_built.
  cbn [bind]. fold (@make_unique Value). rewrite IH. reflexivity.
Qed.

Lemma body_scalars count g :
  exists values,
    Benchmark.body CreateRandomValue Operation count g
    = (Done values, snd (Benchmark.drawn_pairs count g))
    /\ map (option_map scalar_of) values
       = map (fun draws => Some (Benchmark.operated draws))
           (fst (Benchmark.drawn_pairs count g))
    /\ length values = count.
Proof.
  exists (map (fun '(isInt, isIncrement) => make_unique (after isInt isIncrement))
            (fst (Benchmark.drawn_pairs count g))).
  unfold Benchmark.body. rewrite fill_drawn. cbn [app]. rewrite operate_built.
  split; [reflexivity|]. split.
  - rewrite map_map. apply map_ext. intros [isInt isIncrement].
    cbn [option_map make_unique]. now rewrite scalar_after.
  - now rewrite length_map, drawn_pairs_length.
Qed.

End BenchmarkFacts.

Lemma ReferenceSemantics_CreateRandomValue_built {G : Type} `{Source G} (g : G) :
  ReferenceSemantics.CreateRandomValue g
  = (let '(isInt, isIncrement, g') := Documented.two_draws g in
     (make_unique (Documented.ReferenceSemantics_Value isInt isIncrement), g')).
Proof.
  unfold ReferenceSemantics.CreateRandomValue, Documented.two_draws.
  destruct (RandomBool g) as [[] g1]; destruct (RandomBool g1) as [[] g2]; reflexivity.
Qed.

Lemma ValueSemantics_CreateRandomValue_built {G : Type} `{Source G} (g : G) :
  ValueSemantics.CreateRandomValue g
  = (let '(isInt, isIncrement, g') := Documented.two_draws g in
     (make_unique (Documented.ValueSemantics_Value isInt isIncrement), g')).
Proof.
  unfold ValueSemantics.CreateRandomValue, Documented.two_draws.
  destruct (RandomBool g) as [[] g1]; destruct (RandomBool g1) as [[] g2]; reflexivity.
Qed.

Lemma Template_CreateRandomValue_built {G : Type} `{Source G} (g : G) :
  Template.CreateRandomValue g
  = (let '(isInt, isIncrement, g') := Documented.two_draws g in
     (make_unique (Documented.Template_Value isInt isIncrement), g')).
Proof.
  unfold Template.CreateRandomValue, Documented.two_draws.
  destruct (RandomBool g) as [[] g1]; destruct (RandomBool g1) as [[] g2]; reflexivity.
Qed.

(** X6. Each of the three benchmarks runs to its end on every random
    source: the vector holds [valueCount] non-null pointers, every
    [Operation()] completes, and two draws are made per element, in
    order, before any operation. The element built from the draws
    [(isInt, isIncrement)] then holds 1, -1, 1.0f or -1.0f: one step of
    the drawn behaviour from 0. Run on the same source, the three
    benchmarks therefore leave the same scalars in the same order. *)
Theorem benchmarks_complete (G : Type) (source : Source G) (g : G) :
  let pairs := fst (Benchmark.drawn_pairs Benchmark.valueCount g) in
  let g' := snd (Benchmark.drawn_pairs Benchmark.valueCount g) in
  (exists values,
      Benchmark.ReferenceSemantics_Benchmark g = (Done values, g')
      /\ map (option_map Benchmark.ReferenceSemantics_scalar) values
         = map (fun draws => Some (Benchmark.operated draws)) pairs
      /\ length values = Benchmark.valueCount)
  /\ (exists values,
      Benchmark.ValueSemantics_Benchmark g = (Done values, g')
      /\ map (option_map Benchmark.ValueSemantics_scalar) values
         = map (fun draws => Some (Benchmark.operated draws)) pairs
      /\ length values = Benchmark.valueCount)
  /\ (exists values,
      Benchmark.Template_Benchmark g = (Done values, g')
      /\ map (option_map Benchmark.Template_scalar) values
         = map (fun draws => Some (Benchmark.operated draws)) pairs
      /\ length values = Benchmark.valueCount).
Proof.
  intros pairs g'. split; [|split].
  - apply (body_scalars ReferenceSemantics.CreateRandomValue
             ReferenceSemantics.Operation Benchmark.ReferenceSemantics_scalar
             Documented.ReferenceSemantics_Value
             (fun isInt isIncrement =>
                if isInt
                then ReferenceSemantics.IsIntValue
                       (ReferenceSemantics.IntValue.new
                          (Documented.on_int (Documented.behaviour isIncrement) 0)
                          (RefInt.strategy (Documented.behaviour isIncrement)))
                else ReferenceSemantics.IsFloatValue
                       (ReferenceSemantics.FloatValue.new
                          (Documented.on_float (Documented.behaviour isIncrement)
                             Float32.zero)
                          (RefFloat.strategy (Documented.behaviour isIncrement))))).
    + intros g0. apply ReferenceSemantics_CreateRandomValue_built.
    + intros [] []; reflexivity.
    + intros [] []; reflexivity.
  - apply (body_scalars ValueSemantics.CreateRandomValue
             ValueSemantics.Operation Benchmark.ValueSemantics_scalar
             Documented.ValueSemantics_Value
             (fun isInt isIncrement =>
                if isInt
                then ValueSemantics.IsIntValue
                       (ValueSemantics.IntValue.new
                          (Documented.on_int (Documented.behaviour isIncrement) 0)
                          (ValInt.strategy (Documented.behaviour isIncrement)))
                else ValueSemantics.IsFloatValue
                       (ValueSemantics.FloatValue.new
                          (Documented.on_float (Documented.behaviour isIncrement)
                             Float32.zero)
                          (ValFloat.strategy (Documented.behaviour isIncrement))))).
    + intros g0. apply ValueSemantics_CreateRandomValue_built.
    + intros [] []; reflexivity.
    + intros [] []; reflexivity.
  - apply (body_scalars Template.CreateRandomValue
             (fun value => Done (Template.Operation value)) Benchmark.Template_scalar
             Documented.Template_Value
             (fun isInt isIncrement =>
                Template.Operation (Documented.Template_Value isInt isIncrement))).
    + intros g0. apply Template_CreateRandomValue_built.
    + intros [] []; reflexivity.
    + intros [] []; reflexivity.
Qed.

(** Replayed draws, two elements: an incrementing int and a decrementing
    float. *)
Lemma benchmark_body_on_replay :
  Benchmark.body ReferenceSemantics.CreateRandomValue ReferenceSemantics.Operation 2
    [true; true; false; false; true]
  = (Done [make_unique (ReferenceSemantics.IsIntValue
                          (ReferenceSemantics.IntValue.new 1 (RefInt.strategy Increment)));
           make_unique (ReferenceSemantics.IsFloatValue
                          (ReferenceSemantics.FloatValue.new Float32.minus_one
                             (RefFloat.strategy Decrement)))],
     [true]).
Proof. reflexivity. Qed.

(* ===================================================================== *)
(** ** Decrement then increment *)
(* ===================================================================== *)

(** At the lower bound the way back is lost: -16777216.0f minus 1.0f
    rounds to -16777216.0f, and the increment then gives -16777215.0f. *)
Lemma float_way_back_lost_at_lower_bound :
  Documented.on_float Increment
    (Documented.on_float Decrement (Float32.of_Z (-16777216)))
  = Float32.of_Z (-16777215).
Proof. reflexivity. Qed.

(** X7. Decrement followed by increment brings a float container of the
    swappable designs back to its scalar when the scalar is the image of
    an integer [n] with [-2^24 < n <= 2^24]; the strategy left assigned
    is the increment one. *)
Theorem decrement_then_increment (n : Z) :
  - Float32.exact_bound < n <= Float32.exact_bound ->
  RefFloat.run (round_trip_calls (RefFloat.strategy Increment))
    (ReferenceSemantics.FloatValue.new (Float32.of_Z n) (RefFloat.strategy Decrement))
  = Done (ReferenceSemantics.FloatValue.new (Float32.of_Z n)
            (RefFloat.strategy Increment))
  /\ ValFloat.run (round_trip_calls (ValFloat.strategy Increment))
       (ValueSemantics.FloatValue.new (Float32.of_Z n) (ValFloat.strategy Decrement))
     = Done (ValueSemantics.FloatValue.new (Float32.of_Z n)
               (ValFloat.strategy Increment)).
Proof.
  intros Hn. unfold Float32.exact_bound in Hn.
  assert (Ef : Float32.add (Float32.sub (Float32.of_Z n) Float32.one) Float32.one
               = Float32.of_Z n).
  { rewrite Float32Facts.sub_of_Z_one by lia.
    rewrite Float32Facts.add_of_Z_one by lia. f_equal. lia. }
  split; cbn -[Float32.add Float32.sub Float32.of_Z Float32.one];
    rewrite Ef; reflexivity.
Qed.

Lemma way_back_from_upper_bound :
  - Float32.exact_bound < 16777216 <= Float32.exact_bound
  /\ RefFloat.run (round_trip_calls (RefFloat.strategy Increment))
       (ReferenceSemantics.FloatValue.new (Float32.of_Z 16777216)
          (RefFloat.strategy Decrement))
     = Done (ReferenceSemantics.FloatValue.new (Float32.of_Z 16777216)
               (RefFloat.strategy Increment)).
Proof.
  assert (Hn : - Float32.exact_bound < 16777216 <= Float32.exact_bound)
    by (unfold Float32.exact_bound; lia).
  split; [exact Hn|]. exact (proj1 (decrement_then_increment 16777216 Hn)).
Defined.
